(** * Route handlers of the Hydrogen storefront skeleton

    A shallow embedding of the loaders, actions and URL helpers of the
    storefront: ECMAScript values, the framework's responses, a small
    state-and-exception monad for the handlers, and the handlers
    themselves, each next to the source function it follows. *)

From Stdlib Require Import String Ascii List ZArith Lia Bool.
From stdpp Require Import base gmap strings list pretty.

Set Warnings "-register-all".
Open Scope string_scope.
Open Scope list_scope.
Open Scope Z_scope.

(** ** ECMAScript strings *)

Module Str.

(** [s.startsWith(p)] *)
Definition startsWith (s p : string) : bool := String.prefix p s.

(** [s.includes(p)]: [p] occurs somewhere in [s]. *)
Fixpoint includes (s p : string) : bool :=
  String.prefix p s ||
  match s with
  | EmptyString => false
  | String _ rest => includes rest p
  end.

(** [s.split(sep)] for a one-character separator; [cur] holds the piece
    being read, reversed. *)
Fixpoint split_from (sep : ascii) (cur : string) (s : string) : list string :=
  match s with
  | EmptyString => [String.rev cur]
  | String c rest =>
      if Ascii.eqb c sep
      then String.rev cur :: split_from sep EmptyString rest
      else split_from sep (String c cur) rest
  end.

Definition split (s : string) (sep : ascii) : list string :=
  split_from sep EmptyString s.

(** [items.join(sep)] *)
Fixpoint join (sep : string) (items : list string) : string :=
  match items with
  | [] => ""
  | [x] => x
  | x :: rest => x +:+ sep +:+ join sep rest
  end.

(** [items.includes(x)] on an array of strings *)
Definition mem (x : string) (items : list string) : bool :=
  bool_decide (x ∈ items).

End Str.

(** ** ECMAScript values *)

(** The GraphQL documents the routes send. *)
Inductive document :=
| COLLECTION_QUERY | PRODUCT_QUERY | VARIANTS_QUERY | BLOGS_QUERY
| CUSTOMER_ORDER_QUERY | HEADER_QUERY | FOOTER_QUERY
| LOGIN_MUTATION | CUSTOMER_RESET_MUTATION | CUSTOMER_UPDATE_MUTATION
| CREATE_ADDRESS_MUTATION | UPDATE_ADDRESS_MUTATION
| DELETE_ADDRESS_MUTATION | UPDATE_DEFAULT_ADDRESS_MUTATION.

(** What a pending promise is waiting for. *)
Inductive callee :=
| StorefrontQuery (d : document)
| StorefrontMutate (d : document)
| CartGet.

(** A number is kept as the text [Number.prototype.toString] gives for it
    (["0"], ["12.5"], ["NaN"], ["Infinity"]); an object carries its own
    enumerable properties in enumeration order; a promise carries the call
    it stands for. *)
Inductive value :=
| VUndefined
| VNull
| VBool (b : bool)
| VNum (repr : string)
| VStr (s : string)
| VArr (items : list value)
| VObj (props : list (string * value))
| VPromise (c : callee) (options : value).

#[global] Instance document_eq_dec : EqDecision document.
Proof. solve_decision. Defined.

#[global] Instance callee_eq_dec : EqDecision callee.
Proof. solve_decision. Defined.

Definition nullish (v : value) : bool :=
  match v with
  | VUndefined | VNull => true
  | _ => false
  end.

(** ToBoolean *)
Definition truthy (v : value) : bool :=
  match v with
  | VUndefined | VNull => false
  | VBool b => b
  | VNum r => negb (bool_decide (r = "0") || bool_decide (r = "NaN"))
  | VStr s => negb (bool_decide (s = ""))
  | VArr _ | VObj _ | VPromise _ _ => true
  end.

(** ToString *)
Fixpoint to_string (v : value) : string :=
  match v with
  | VUndefined => "undefined"
  | VNull => "null"
  | VBool true => "true"
  | VBool false => "false"
  | VNum r => r
  | VStr s => s
  | VArr items =>
      Str.join ","
        (map (fun x => if nullish x then "" else to_string x) items)
  | VObj _ => "[object Object]"
  | VPromise _ _ => "[object Promise]"
  end.

(** Decimal text of a natural number (array lengths and indices). *)
Definition nat_repr (n : nat) : string :=
  pretty n.

(** Property lookup in an object literal: the first entry under the key. *)
Fixpoint assoc {A} (k : string) (props : list (string * A)) : option A :=
  match props with
  | [] => None
  | (k', v) :: rest => if decide (k = k') then Some v else assoc k rest
  end.

(** [obj[k] = v] on an object: an existing property keeps its place. *)
Fixpoint assign {A} (k : string) (v : A) (props : list (string * A))
  : list (string * A) :=
  match props with
  | [] => [(k, v)]
  | (k', v') :: rest =>
      if decide (k = k') then (k, v) :: rest else (k', v') :: assign k v rest
  end.

(** [{...a, ...b}] *)
Definition spread {A} (a b : list (string * A)) : list (string * A) :=
  fold_left (fun acc kv => assign (fst kv) (snd kv) acc) b a.

(** ** Sorting parameter of the collection route *)

Record sort_values := { sortKey : string; reverse : bool }.

(** [getSortValuesFromParam] (src/unnamed/part_000, lines 287-323); [null]
    is [None]. *)
Definition getSortValuesFromParam (sortParam : option string) : sort_values :=
  match sortParam with
  | Some s =>
      if decide (s = "price-high-low") then
        {| sortKey := "PRICE"; reverse := true |}
      else if decide (s = "price-low-high") then
        {| sortKey := "PRICE"; reverse := false |}
      else if decide (s = "best-selling") then
        {| sortKey := "BEST_SELLING"; reverse := false |}
      else if decide (s = "newest") then
        {| sortKey := "CREATED"; reverse := true |}
      else if decide (s = "featured") then
        {| sortKey := "MANUAL"; reverse := false |}
      else
        {| sortKey := "RELEVANCE"; reverse := false |}
  | None => {| sortKey := "RELEVANCE"; reverse := false |}
  end.

(** ** Responses and exceptions *)

Inductive body :=
| NoBody
| Text (s : string)
| Json (data : value)
| Deferred (data : value).

Record response := {
  status : Z;
  headers : list (string * string);
  body_of : body;
}.

(** [new Response(body, {status})] *)
Definition Response (b : option string) (st : Z) : response :=
  match b with
  | Some s =>
      {| status := st;
         headers := [("Content-Type", "text/plain;charset=UTF-8")];
         body_of := Text s |}
  | None => {| status := st; headers := []; body_of := NoBody |}
  end.

Definition has_header (name : string) (r : response) : bool :=
  bool_decide (name ∈ (fst <$> headers r)).

(** [json(data, {status, headers})] of remix-oxygen: 200 unless a status is
    given; the content type is added when the caller set none. *)
Definition json (data : value) (st : option Z) (hs : list (string * string))
  : response :=
  {| status := default 200 st;
     headers :=
       if bool_decide ("Content-Type" ∈ (fst <$> hs)) then hs
       else hs ++ [("Content-Type", "application/json; charset=utf-8")];
     body_of := Json data |}.

(** [redirect(url, {status, headers})]: 302 unless a status is given. *)
Definition redirect (url : string) (st : option Z) (hs : list (string * string))
  : response :=
  {| status := default 302 st;
     headers := assign "Location" url hs;
     body_of := NoBody |}.

(** [defer(data, {headers})] *)
Definition defer (data : value) (hs : list (string * string)) : response :=
  {| status := 200; headers := hs; body_of := Deferred data |}.

(** What a [throw] carries: an [Error] instance (with its constructor's
    name), a [Response], or any other value. *)
Inductive thrown :=
| ThrownError (name message : string)
| ThrownResponse (r : response)
| ThrownValue (v : value).

Definition Error (message : string) : thrown := ThrownError "Error" message.

(** [new Error(v)]: an undefined message is the empty string. *)
Definition Error_of (v : value) : thrown :=
  Error (match v with VUndefined => "" | _ => to_string v end).

(** Reading a property of [undefined] or [null], with the engine's text. *)
Definition cannot_read (k : string) (v : value) : thrown :=
  ThrownError "TypeError"
    ("Cannot read properties of " +:+ to_string v
       +:+ " (reading '" +:+ k +:+ "')").

Inductive outcome (A : Type) :=
| Normal (a : A)
| Abrupt (t : thrown).
Arguments Normal {A} a.
Arguments Abrupt {A} t.

(** [o.k] and [o[k]] for a string key. *)
Definition get_prop (o : value) (k : string) : outcome value :=
  match o with
  | VUndefined | VNull => Abrupt (cannot_read k o)
  | VObj props => Normal (default VUndefined (assoc k props))
  | VArr items =>
      if decide (k = "length") then Normal (VNum (nat_repr (length items)))
      else Normal VUndefined
  | VStr s =>
      if decide (k = "length") then Normal (VNum (nat_repr (String.length s)))
      else Normal VUndefined
  | _ => Normal VUndefined
  end.

(** [o[i]] for an index. *)
Definition get_index (o : value) (i : nat) : outcome value :=
  match o with
  | VUndefined | VNull => Abrupt (cannot_read (nat_repr i) o)
  | VArr items => Normal (default VUndefined (items !! i))
  | VObj props => Normal (default VUndefined (assoc (nat_repr i) props))
  | VStr s =>
      Normal (match String.get i s with
              | Some c => VStr (String c EmptyString)
              | None => VUndefined
              end)
  | _ => Normal VUndefined
  end.

(** [k in o] for an object (a [TypeError] on anything else). *)
Definition has_prop (k : string) (o : value) : outcome bool :=
  match o with
  | VObj props => Normal (bool_decide (is_Some (assoc k props)))
  | VArr items =>
      Normal (bool_decide (k = "length")
              || bool_decide (k ∈ (nat_repr <$> seq 0 (length items))))
  | VPromise _ _ => Normal false
  | _ =>
      Abrupt (ThrownError "TypeError"
                ("Cannot use 'in' operator to search for '" +:+ k +:+ "' in "
                   +:+ to_string o))
  end.

(** ** The handler monad: state and exceptions *)

Definition M (S A : Type) : Type := S -> outcome A * S.

Definition ret {S A} (a : A) : M S A := fun s => (Normal a, s).

Definition bind {S A B} (m : M S A) (k : A -> M S B) : M S B :=
  fun s =>
    match m s with
    | (Normal a, s') => k a s'
    | (Abrupt t, s') => (Abrupt t, s')
    end.

Definition throw {S A} (t : thrown) : M S A := fun s => (Abrupt t, s).

(** [try { m } catch (error) { handler(error) }] *)
Definition try_catch {S A} (m : M S A) (handler : thrown -> M S A) : M S A :=
  fun s =>
    match m s with
    | (Normal a, s') => (Normal a, s')
    | (Abrupt t, s') => handler t s'
    end.

Definition lift {S A} (o : outcome A) : M S A := fun s => (o, s).

Definition modify {S} (f : S -> S) : M S unit := fun s => (Normal tt, f s).

Definition gets {S A} (f : S -> A) : M S A := fun s => (Normal (f s), s).

Declare Scope js_scope.
Delimit Scope js_scope with js.
Notation "'let*' x ':=' m 'in' k" := (bind m (fun x => k))
  (at level 10, x name, m at level 100, k at level 200) : js_scope.
Notation "m ';;' k" := (bind m (fun _ => k))
  (at level 100, k at level 200, right associativity) : js_scope.
Open Scope js_scope.

(** [for (const x of items) body(x)] *)
Fixpoint for_of {S A} (items : list A) (body : A -> M S unit) : M S unit :=
  match items with
  | [] => ret tt
  | x :: rest => body x ;; for_of rest body
  end.

(** [o?.k]: undefined when [o] is nullish. *)
Definition opt_prop (o : value) (k : string) : value :=
  match get_prop o k with
  | Normal v => v
  | Abrupt _ => VUndefined
  end.

(** ** URLSearchParams *)

(** The entries of a query string, in order; a key may occur many times. *)
Module URLSearchParams.

Definition t : Type := list (string * string).

Definition get (k : string) (params : t) : option string := assoc k params.

Definition has (k : string) (params : t) : bool :=
  match assoc k params with
  | Some _ => true
  | None => false
  end.

Definition getAll (k : string) (params : t) : list string :=
  snd <$> List.filter (fun kv => bool_decide (fst kv = k)) params.

(** [delete(k)] removes every entry under the key. *)
Definition delete (k : string) (params : t) : t :=
  List.filter (fun kv => negb (bool_decide (fst kv = k))) params.

Definition append (k v : string) (params : t) : t := params ++ [(k, v)].

(** [set(k, v)] overwrites the first entry under the key and removes the
    others; without such an entry it appends. *)
Fixpoint set (k v : string) (params : t) : t :=
  match params with
  | [] => [(k, v)]
  | (k', v') :: rest =>
      if decide (k' = k) then (k, v) :: delete k rest
      else (k', v') :: set k v rest
  end.

End URLSearchParams.

(** ** Requests, the load context and the platform *)

(** A [FormData] entry: a string or a [File] (told apart by identity). *)
Inductive form_entry :=
| FString (s : string)
| FFile (id : nat).

#[global] Instance form_entry_eq_dec : EqDecision form_entry.
Proof. solve_decision. Defined.

(** [String(entry)] *)
Definition form_entry_string (e : form_entry) : string :=
  match e with
  | FString s => s
  | FFile _ => "[object File]"
  end.

(** A request as the handlers read it: the method, the parsed URL and the
    decoded form body, entries in document order. *)
Record request := {
  method : string;
  pathname : string;
  searchParams : list (string * string);
  formData : list (string * form_entry);
}.

(** What the hosted API answers to a call. *)
Inductive reply :=
| Resolved (data : value)
| Rejected (t : thrown).

(** The per-request load context handed to every loader and action, and
    the clock. *)
Record context := {
  storefront_reply : callee -> value -> reply;
  i18n_country : value;
  i18n_language : value;
  CacheLong : value;
  CacheNone : value;
  commitSession : gmap string value -> string;
  PUBLIC_STORE_DOMAIN : value;
  Date_now : Z;
}.

(** Built-ins and library functions the routes call and this development
    does not look into. *)
Class Platform := {
  (** [Number(s)], as the text of the number *)
  ToNumber : string -> string;
  (** [new Date(v).getTime()]; [None] is NaN *)
  Date_getTime : value -> option Z;
  (** [atob(s)]; [None] when it throws *)
  atob : string -> option string;
  (** [decodeURIComponent(s)]; [None] when it throws *)
  decodeURIComponent : string -> option string;
  (** [JSON.parse(s)]; [None] when it throws *)
  JSON_parse : string -> option value;
  (** Hydrogen's [getPaginationVariables(request, {pageBy})] *)
  getPaginationVariables : request -> Z -> list (string * value);
  (** Hydrogen's [getSelectedProductOptions(request)] *)
  getSelectedProductOptions : request -> list (string * string);
  (** Hydrogen's [flattenConnection] *)
  flattenConnection : value -> outcome value;
  (** [getVariantUrl] of the application's utilities, on the pathname, the
      product handle, the selected options and the search parameters *)
  getVariantUrl :
    string -> value -> value -> list (string * string) -> outcome string;
  (** [URLSearchParams.prototype.toString] *)
  urlencoded : list (string * string) -> string;
}.

(** What the handler did to the outside: a call goes out when it is made,
    and the handler waits for its answer only where it awaits. *)
Inductive event :=
| Sent (c : callee) (options : value)
| Awaited (c : callee) (options : value).

(** The state a handler runs in: the session's data and the calls so far. *)
Record world := {
  session : gmap string value;
  trace : list event;
}.

Definition log (e : event) : M world unit :=
  modify (fun w => {| session := session w; trace := trace w ++ [e] |}).

Section Handlers.

Context `{Platform}.
Variable ctx : context.

(** [storefront.query(doc, options)]: the call goes out, a promise comes
    back. *)
Definition storefront_query (d : document) (options : value) : M world value :=
  log (Sent (StorefrontQuery d) options) ;;
  ret (VPromise (StorefrontQuery d) options).

Definition storefront_mutate (d : document) (options : value) : M world value :=
  log (Sent (StorefrontMutate d) options) ;;
  ret (VPromise (StorefrontMutate d) options).

(** [cart.get()] *)
Definition cart_get : M world value :=
  log (Sent CartGet VUndefined) ;;
  ret (VPromise CartGet VUndefined).

(** [await v]: a promise gives the answer to its call, or throws its
    rejection; any other value is itself. *)
Definition await (v : value) : M world value :=
  match v with
  | VPromise c options =>
      log (Awaited c options) ;;
      match storefront_reply ctx c options with
      | Resolved data => ret data
      | Rejected t => throw t
      end
  | _ => ret v
  end.

(** Modelled from the spec: the session class of the server entry is not
    among the sources; the session is the data of a signed cookie, read and
    written by key, and [commit] gives the cookie for the data as it
    stands.

    [session.get(key)] *)
Definition session_get (key : string) : M world value :=
  gets (fun w => default VUndefined (session w !! key)).

(** [session.set(key, v)] *)
Definition session_set (key : string) (v : value) : M world unit :=
  modify (fun w => {| session := <[key := v]> (session w); trace := trace w |}).

(** [session.unset(key)] *)
Definition session_unset (key : string) : M world unit :=
  modify (fun w => {| session := delete key (session w); trace := trace w |}).

(** [session.commit()]: the cookie for the session as it now stands. *)
Definition session_commit : M world string :=
  gets (fun w => commitSession ctx (session w)).

(** [form.has(k)] and [form.get(k)]: the first entry under the name *)
Definition form_has (k : string) (form : list (string * form_entry)) : bool :=
  match assoc k form with
  | Some _ => true
  | None => false
  end.

Definition form_get (k : string) (form : list (string * form_entry))
  : option form_entry :=
  assoc k form.

(** [v === "text"] *)
Definition is_str (v : value) (text : string) : bool :=
  match v with
  | VStr s => bool_decide (s = text)
  | _ => false
  end.

(** [o.k = v] *)
Definition set_prop (o : value) (k : string) (v : value) : outcome value :=
  match o with
  | VObj props => Normal (VObj (assign k v props))
  | VUndefined | VNull =>
      Abrupt (ThrownError "TypeError"
                ("Cannot set properties of " +:+ to_string o
                   +:+ " (setting '" +:+ k +:+ "')"))
  | _ =>
      Abrupt (ThrownError "TypeError"
                ("Cannot create property '" +:+ k +:+ "' on "
                   +:+ to_string o))
  end.

(** [params.k] of the route parameters, as a value *)
Definition param (params : gmap string string) (k : string) : value :=
  match params !! k with
  | Some s => VStr s
  | None => VUndefined
  end.

(** *** Collection route (src/unnamed/part_000) *)

(** One turn of the loop over [searchParams.entries()]: what is pushed
    on [filters] and on [appliedFilters]. *)
Definition collection_filter_step (acc : list value * list value)
    (entry : string * string) : list value * list value :=
  let '(filters, appliedFilters) := acc in
  let '(key, value) := entry in
  let urlParam := VObj [("key", VStr key); ("value", VStr value)] in
  if decide ("available" = key) then
    (filters ++ [VObj [("available", VBool (bool_decide (value = "true")))]],
     appliedFilters ++
       [VObj [("label",
               VStr (if decide (value = "true") then "In stock"
                     else "Out of stock"));
              ("urlParam",
               VObj [("key", VStr "available"); ("value", VStr value)])]])
  else if Str.mem key ["productVendor"; "productType"] then
    (filters ++ [VObj [(key, VStr value)]],
     appliedFilters ++ [VObj [("label", VStr value); ("urlParam", urlParam)]])
  else if Str.includes key "variantOption" then
    let pieces := Str.split value ":" in
    let name := from_option VStr VUndefined (pieces !! 0%nat) in
    let val := from_option VStr VUndefined (pieces !! 1%nat) in
    (filters ++
       [VObj [("variantOption", VObj [("name", name); ("value", val)])]],
     appliedFilters ++ [VObj [("label", val); ("urlParam", urlParam)]])
  else (filters, appliedFilters).

(** [Number(searchParams.get(k)) || 0] *)
Definition price_bound (k : string) (searchParams : list (string * string))
  : string :=
  let n :=
    match URLSearchParams.get k searchParams with
    | Some s => ToNumber s
    | None => "0"
    end in
  if truthy (VNum n) then n else "0".

(** The price filter built after the loop. *)
Definition collection_price_filter (acc : list value * list value)
    (searchParams : list (string * string)) : list value * list value :=
  let '(filters, appliedFilters) := acc in
  let has k := URLSearchParams.has k searchParams in
  if has "minPrice" || has "maxPrice" then
    let '(price, applied1) :=
      if has "minPrice" then
        let min := price_bound "minPrice" searchParams in
        ([("min", VNum min)],
         appliedFilters ++
           [VObj [("label", VStr ("Min: $" +:+ min));
                  ("urlParam",
                   VObj [("key", VStr "minPrice");
                         ("value",
                          VStr (default ""
                                  (URLSearchParams.get "minPrice"
                                     searchParams)))])]])
      else ([], appliedFilters) in
    let '(price, applied2) :=
      if has "maxPrice" then
        let max := price_bound "maxPrice" searchParams in
        (assign "max" (VNum max) price,
         applied1 ++
           [VObj [("label", VStr ("Max: $" +:+ max));
                  ("urlParam",
                   VObj [("key", VStr "maxPrice");
                         ("value",
                          VStr (default ""
                                  (URLSearchParams.get "maxPrice"
                                     searchParams)))])]])
      else (price, applied1) in
    (filters ++ [VObj [("price", VObj price)]], applied2)
  else (filters, appliedFilters).

(** The options of the collection query for a request and a handle. *)
Definition collection_query_options (req : request) (handle : string)
  : value * list value :=
  let paginationVariables := getPaginationVariables req 8 in
  let sort :=
    getSortValuesFromParam (URLSearchParams.get "sort" (searchParams req)) in
  let '(filters, appliedFilters) :=
    collection_price_filter
      (fold_left collection_filter_step (searchParams req) ([], []))
      (searchParams req) in
  (VObj [("variables",
          VObj (spread paginationVariables
                  [("handle", VStr handle);
                   ("filters", VArr filters);
                   ("sortKey", VStr (sortKey sort));
                   ("reverse", VBool (reverse sort));
                   ("country", i18n_country ctx);
                   ("language", i18n_language ctx)]))],
   appliedFilters).

(** [loader] of the collection route, lines 36-124 *)
Definition collection_loader (req : request) (params : gmap string string)
  : M world response :=
  match params !! "handle" with
  | None | Some "" => ret (redirect "/collections" None [])
  | Some handle =>
      let '(options, appliedFilters) := collection_query_options req handle in
      let* promise := storefront_query COLLECTION_QUERY options in
      let* data := await promise in
      let* collection := lift (get_prop data "collection") in
      if negb (truthy collection) then
        throw (ThrownResponse
                 (Response (Some ("Collection " +:+ handle +:+ " not found"))
                    404))
      else
        ret (json (VObj [("collection", collection);
                         ("appliedFilters", VArr appliedFilters)])
               None [])
  end.

(** *** Blog route (src/app/routes/blogs.$blogHandle._index.tsx) *)

Definition blog_query_options (req : request) (blogHandle : string) : value :=
  VObj [("variables",
         VObj (spread [("blogHandle", VStr blogHandle)]
                 (getPaginationVariables req 4)))].

(** [loader] of the blog route, lines 13-38 *)
Definition blog_loader (req : request) (params : gmap string string)
  : M world response :=
  match params !! "blogHandle" with
  | None | Some "" =>
      throw (ThrownResponse (Response (Some "blog not found") 404))
  | Some blogHandle =>
      let* promise :=
        storefront_query BLOGS_QUERY (blog_query_options req blogHandle) in
      let* data := await promise in
      let* blog := lift (get_prop data "blog") in
      if negb (truthy (opt_prop blog "articles")) then
        throw (ThrownResponse (Response (Some "Not found") 404))
      else ret (json (VObj [("blog", blog)]) None [])
  end.

(** *** Product route (src/unnamed/part_003) *)

(** The callback of [selectedOptions.find]: the option named Title with
    the value Default Title. *)
Definition is_default_title (option : value) : outcome bool :=
  match get_prop option "name" with
  | Abrupt t => Abrupt t
  | Normal name =>
      if is_str name "Title" then
        match get_prop option "value" with
        | Abrupt t => Abrupt t
        | Normal v => Normal (is_str v "Default Title")
        end
      else Normal false
  end.

Fixpoint find_first (test : value -> outcome bool) (items : list value)
  : outcome value :=
  match items with
  | [] => Normal VUndefined
  | x :: rest =>
      match test x with
      | Abrupt t => Abrupt t
      | Normal true => Normal x
      | Normal false => find_first test rest
      end
  end.

(** [o.find(test)] *)
Definition array_find (test : value -> outcome bool) (o : value)
  : outcome value :=
  match o with
  | VArr items => find_first test items
  | VUndefined | VNull => Abrupt (cannot_read "find" o)
  | _ => Abrupt (ThrownError "TypeError" "find is not a function")
  end.

(** [product.variants.nodes[0]] *)
Definition first_variant (product : value) : outcome value :=
  match get_prop product "variants" with
  | Abrupt t => Abrupt t
  | Normal variants =>
      match get_prop variants "nodes" with
      | Abrupt t => Abrupt t
      | Normal nodes => get_index nodes 0
      end
  end.

(** [redirectToFirstVariant], lines 84-105: it throws the redirect. *)
Definition redirectToFirstVariant (product : value) (req : request)
  : M world response :=
  let* firstVariant := lift (first_variant product) in
  let* handle := lift (get_prop product "handle") in
  let* selectedOptions := lift (get_prop firstVariant "selectedOptions") in
  let* url :=
    lift (getVariantUrl (pathname req) handle selectedOptions
            (searchParams req)) in
  throw (ThrownResponse (redirect url (Some 302) [])).

(** The selected options sent with the product query: those of the
    request without the predictive-search parameters. *)
Definition product_selected_options (req : request) : list (string * string) :=
  List.filter
    (fun option =>
       negb (Str.startsWith (fst option) "_sid") &&
       negb (Str.startsWith (fst option) "_pos") &&
       negb (Str.startsWith (fst option) "_psq") &&
       negb (Str.startsWith (fst option) "_ss") &&
       negb (Str.startsWith (fst option) "_v"))
    (getSelectedProductOptions req).

Definition product_query_options (req : request) (handle : string) : value :=
  VObj [("variables",
         VObj [("handle", VStr handle);
               ("selectedOptions",
                VArr ((fun o => VObj [("name", VStr (fst o));
                                      ("value", VStr (snd o))])
                        <$> product_selected_options req))])].

Definition variants_query_options (handle : string) : value :=
  VObj [("variables", VObj [("handle", VStr handle)])].

(** [loader] of the product route, lines 29-82 *)
Definition product_loader (req : request) (params : gmap string string)
  : M world response :=
  match params !! "handle" with
  | None | Some "" => throw (Error "Expected product handle to be defined")
  | Some handle =>
      let* promise :=
        storefront_query PRODUCT_QUERY (product_query_options req handle) in
      let* data := await promise in
      let* product := lift (get_prop data "product") in
      let* variants :=
        storefront_query VARIANTS_QUERY (variants_query_options handle) in
      if negb (truthy (opt_prop product "id")) then
        throw (ThrownResponse (Response None 404))
      else
        let* firstVariant := lift (first_variant product) in
        let* options := lift (get_prop firstVariant "selectedOptions") in
        let* found := lift (array_find is_default_title options) in
        if truthy found then
          let* product' :=
            lift (set_prop product "selectedVariant" firstVariant) in
          ret (defer (VObj [("product", product'); ("variants", variants)]) [])
        else
          let* selectedVariant := lift (get_prop product "selectedVariant") in
          if negb (truthy selectedVariant) then
            redirectToFirstVariant product req
          else
            ret (defer (VObj [("product", product); ("variants", variants)])
                   [])
  end.

(** *** Order route (second module of src/app/routes/_auth.account_.login.tsx) *)

Definition order_query_options (orderId : string) : value :=
  VObj [("variables", VObj [("orderId", VStr orderId)])].

(** [a && b] *)
Definition js_and (a b : value) : value := if truthy a then b else a.

(** [loader] of the order route, lines 175-215 *)
Definition order_loader (params : gmap string string) : M world response :=
  match params !! "id" with
  | None | Some "" => ret (redirect "/account/orders" None [])
  | Some id =>
      match atob id with
      | None =>
          throw (ThrownError "InvalidCharacterError"
                   "The string to be decoded is not correctly encoded.")
      | Some orderId =>
          let* customerAccessToken := session_get "customerAccessToken" in
          if negb (truthy customerAccessToken) then
            ret (redirect "/account/login" None [])
          else
            let* promise :=
              storefront_query CUSTOMER_ORDER_QUERY
                (order_query_options orderId) in
            let* data := await promise in
            let* order := lift (get_prop data "order") in
            let* missing :=
              if negb (truthy order) then ret true
              else
                let* present := lift (has_prop "lineItems" order) in
                ret (negb present) in
            if (missing : bool) then
              throw (ThrownResponse (Response (Some "Order not found") 404))
            else
              let* items := lift (get_prop order "lineItems") in
              let* lineItems := lift (flattenConnection items) in
              let* applications := lift (get_prop order "discountApplications") in
              let* discountApplications := lift (flattenConnection applications) in
              let* first := lift (get_index discountApplications 0) in
              let firstDiscount := opt_prop first "value" in
              let discountValue :=
                js_and
                  (VBool (is_str (opt_prop firstDiscount "__typename") "MoneyV2"))
                  firstDiscount in
              let discountPercentage :=
                js_and
                  (VBool (is_str (opt_prop firstDiscount "__typename")
                            "PricingPercentageValue"))
                  (opt_prop firstDiscount "percentage") in
              ret (json (VObj [("order", order);
                               ("lineItems", lineItems);
                               ("discountValue", discountValue);
                               ("discountPercentage", discountPercentage)])
                     None [])
      end
  end.

(** *** Account actions *)

(** A request as it reaches an action, its body not yet read.
    [request.formData()] resolves to the entries of a body that is
    form-encoded; on any other body it rejects with a TypeError, whose
    message is the platform's. Of such a request the actions below read
    nothing but the method. The profile and the recovery action read the
    form outside their [try] and take an [incoming]; the other actions
    read it inside their [try] and are given on a [request], whose form
    has decoded. *)
Inductive incoming :=
| FormRequest (req : request)
| OtherRequest (m : string) (message : string).

(** [request.method] *)
Definition incoming_method (i : incoming) : string :=
  match i with
  | FormRequest req => method req
  | OtherRequest m _ => m
  end.

(** [await request.formData()] *)
Definition request_formData {S} (i : incoming)
  : M S (list (string * form_entry)) :=
  match i with
  | FormRequest req => ret (formData req)
  | OtherRequest _ message => throw (ThrownError "TypeError" message)
  end.

(** The [catch] clause the account actions share:
    [error instanceof Error ? json({error: error.message}, 400)
                            : json({error}, 400)].
    A thrown [Response] has no enumerable property of its own. *)
Definition caught_value (t : thrown) : value :=
  match t with
  | ThrownError _ message => VStr message
  | ThrownResponse _ => VObj []
  | ThrownValue v => v
  end.

Definition bad_request (t : thrown) : M world response :=
  ret (json (VObj [("error", caught_value t)]) (Some 400) []).

Definition method_not_allowed : response :=
  json (VObj [("error", VStr "Method not allowed")]) (Some 405) [].

(** [o?.customerUserErrors[0].message], the message handed to [Error] *)
Definition first_user_error_message (o : value) : outcome value :=
  if nullish o then Normal VUndefined
  else
    match get_prop o "customerUserErrors" with
    | Abrupt t => Abrupt t
    | Normal errors =>
        match get_index errors 0 with
        | Abrupt t => Abrupt t
        | Normal first => get_prop first "message"
        end
    end.

(** [form.has(k) ? String(form.get(k)) : ''] *)
Definition form_text (k : string) (form : list (string * form_entry)) : string :=
  if form_has k form
  then from_option form_entry_string "null" (form_get k form)
  else "".

Definition login_options (email password : string) : value :=
  VObj [("variables",
         VObj [("input",
                VObj [("email", VStr email); ("password", VStr password)])])].

(** [action] of the login route (src/app/routes/_auth.account_.login.tsx,
    lines 42-86) *)
Definition login_action (req : request) : M world response :=
  if negb (bool_decide (method req = "POST")) then ret method_not_allowed
  else
    try_catch
      (let form := formData req in
       let email := form_text "email" form in
       let password := form_text "password" form in
       let validInputs := truthy (js_and (VStr email) (VStr password)) in
       if negb validInputs then
         throw (Error "Please provide both an email and a password.")
       else
         let* promise :=
           storefront_mutate LOGIN_MUTATION (login_options email password) in
         let* data := await promise in
         let* customerAccessTokenCreate :=
           lift (get_prop data "customerAccessTokenCreate") in
         if negb (truthy (opt_prop
                            (opt_prop customerAccessTokenCreate
                               "customerAccessToken")
                            "accessToken")) then
           let* message :=
             lift (first_user_error_message customerAccessTokenCreate) in
           throw (Error_of message)
         else
           let* customerAccessToken :=
             lift (get_prop customerAccessTokenCreate "customerAccessToken") in
           session_set "customerAccessToken" customerAccessToken ;;
           let* cookie := session_commit in
           ret (redirect "/account" None [("Set-Cookie", cookie)]))
      bad_request.

Definition reset_options (id password resetToken : string) : value :=
  VObj [("variables",
         VObj [("id", VStr ("gid://shopify/Customer/" +:+ id));
               ("input",
                VObj [("password", VStr password);
                      ("resetToken", VStr resetToken)])])].

(** [x?.length] as a condition: a non-empty array or string. *)
Definition has_length (v : value) : bool := truthy (opt_prop v "length").

(** [action] of the password reset route (src/unnamed/part_002, lines
    663-712) *)
Definition reset_action (req : request) (params : gmap string string)
  : M world response :=
  if negb (bool_decide (method req = "POST")) then ret method_not_allowed
  else
    let id := param params "id" in
    let resetToken := param params "resetToken" in
    try_catch
      (if negb (truthy id) || negb (truthy resetToken) then
         throw (Error "customer token or id not found")
       else
         let form := formData req in
         let password := form_text "password" form in
         let passwordConfirm := form_text "passwordConfirm" form in
         let validInputs :=
           truthy (js_and (VStr password) (VStr passwordConfirm)) in
         if validInputs && negb (bool_decide (password = passwordConfirm)) then
           throw (Error "Please provide matching passwords")
         else
           let* promise :=
             storefront_mutate CUSTOMER_RESET_MUTATION
               (reset_options (to_string id) password (to_string resetToken)) in
           let* data := await promise in
           let* customerReset := lift (get_prop data "customerReset") in
           if has_length (opt_prop customerReset "customerUserErrors") then
             let* message := lift (first_user_error_message customerReset) in
             throw (Error_of message)
           else if negb (truthy (opt_prop customerReset "customerAccessToken")) then
             throw (Error "Access token not found. Please try again.")
           else
             let* customerAccessToken :=
               lift (get_prop customerReset "customerAccessToken") in
             session_set "customerAccessToken" customerAccessToken ;;
             let* cookie := session_commit in
             ret (redirect "/account" None [("Set-Cookie", cookie)]))
      bad_request.

(** *** Addresses action (src/unnamed/part_002, lines 47-223) *)

(** The [catch] clause inside each method of the addresses action: the
    error is filed under the address id. *)
Definition address_error (addressId : string) (st : Z) (error : value)
  : response :=
  json (VObj [("error", VObj [(addressId, error)])]) (Some st) [].

Definition address_bad_request (addressId : string) (t : thrown)
  : M world response :=
  ret (address_error addressId 400 (caught_value t)).

(** The loop over the address keys: string entries of the form are
    copied into the address. *)
Definition address_of_form (form : list (string * form_entry))
  : list (string * value) :=
  fold_left
    (fun address key =>
       match form_get key form with
       | Some (FString v) => assign key (VStr v) address
       | _ => address
       end)
    ["address1"; "address2"; "city"; "company"; "country"; "firstName";
     "lastName"; "phone"; "province"; "zip"]
    [].

(** [if (o?.customerUserErrors?.length) throw new Error(o.customerUserErrors[0].message)] *)
Definition throw_user_errors (o : value) : M world unit :=
  if has_length (opt_prop o "customerUserErrors") then
    let* errors := lift (get_prop o "customerUserErrors") in
    let* error := lift (get_index errors 0) in
    let* message := lift (get_prop error "message") in
    throw (Error_of message)
  else ret tt.

(** The default-address update shared by creation and update. *)
Definition update_default_address (accessToken : value) (addressId : string)
  : M world unit :=
  let* promise :=
    storefront_mutate UPDATE_DEFAULT_ADDRESS_MUTATION
      (VObj [("variables",
              VObj [("customerAccessToken", accessToken);
                    ("addressId", VStr addressId)])]) in
  let* data := await promise in
  let* customerDefaultAddressUpdate :=
    lift (get_prop data "customerDefaultAddressUpdate") in
  throw_user_errors customerDefaultAddressUpdate.

(** [decodeURIComponent(v)] *)
Definition decode_component (v : value) : M world string :=
  match decodeURIComponent (to_string v) with
  | Some s => ret s
  | None => throw (ThrownError "URIError" "URI malformed")
  end.

(** [defaultAddress] as it is sent back: a boolean or [null]. *)
Definition default_address_value (defaultAddress : option bool) : value :=
  from_option VBool VNull defaultAddress.

Definition address_create (addressId : string) (accessToken : value)
    (address : list (string * value)) (defaultAddress : option bool)
  : M world response :=
  try_catch
    (let* promise :=
       storefront_mutate CREATE_ADDRESS_MUTATION
         (VObj [("variables",
                 VObj [("customerAccessToken", accessToken);
                       ("address", VObj address)])]) in
     let* data := await promise in
     let* customerAddressCreate := lift (get_prop data "customerAddressCreate") in
     throw_user_errors customerAddressCreate ;;
     let createdAddress := opt_prop customerAddressCreate "customerAddress" in
     if negb (truthy (opt_prop createdAddress "id")) then
       throw (Error
                "Expected customer address to be created, but the id is missing")
     else
       (if default false defaultAddress then
          let* id := lift (get_prop createdAddress "id") in
          let* createdAddressId := decode_component id in
          update_default_address accessToken createdAddressId
        else ret tt) ;;
       ret (json (VObj [("error", VNull);
                        ("createdAddress", createdAddress);
                        ("defaultAddress", default_address_value defaultAddress)])
              None []))
    (address_bad_request addressId).

Definition address_update (addressId : string) (accessToken : value)
    (address : list (string * value)) (defaultAddress : option bool)
  : M world response :=
  try_catch
    (let* id := decode_component (VStr addressId) in
     let* promise :=
       storefront_mutate UPDATE_ADDRESS_MUTATION
         (VObj [("variables",
                 VObj [("address", VObj address);
                       ("customerAccessToken", accessToken);
                       ("id", VStr id)])]) in
     let* data := await promise in
     let* customerAddressUpdate := lift (get_prop data "customerAddressUpdate") in
     let updatedAddress := opt_prop customerAddressUpdate "customerAddress" in
     throw_user_errors customerAddressUpdate ;;
     (if default false defaultAddress then
        let* id := decode_component (VStr addressId) in
        update_default_address accessToken id
      else ret tt) ;;
     ret (json (VObj [("error", VNull);
                      ("updatedAddress", updatedAddress);
                      ("defaultAddress", default_address_value defaultAddress)])
            None []))
    (address_bad_request addressId).

Definition address_delete (addressId : string) (accessToken : value)
  : M world response :=
  try_catch
    (let* promise :=
       storefront_mutate DELETE_ADDRESS_MUTATION
         (VObj [("variables",
                 VObj [("customerAccessToken", accessToken);
                       ("id", VStr addressId)])]) in
     let* data := await promise in
     let* customerAddressDelete := lift (get_prop data "customerAddressDelete") in
     throw_user_errors customerAddressDelete ;;
     ret (json (VObj [("error", VNull); ("deletedAddress", VStr addressId)])
            None []))
    (address_bad_request addressId).

(** [action] of the addresses route *)
Definition addresses_action (req : request) : M world response :=
  try_catch
    (let form := formData req in
     match form_entry_string <$> form_get "addressId" form with
     | None | Some "" => throw (Error "You must provide an address id.")
     | Some addressId =>
         let* customerAccessToken := session_get "customerAccessToken" in
         if negb (truthy customerAccessToken) then
           ret (address_error addressId 401 (VStr "Unauthorized"))
         else
           let* accessToken := lift (get_prop customerAccessToken "accessToken") in
           let defaultAddress :=
             (fun e => bool_decide (form_entry_string e = "on"))
               <$> form_get "defaultAddress" form in
           let address := address_of_form form in
           if decide (method req = "POST") then
             address_create addressId accessToken address defaultAddress
           else if decide (method req = "PUT") then
             address_update addressId accessToken address defaultAddress
           else if decide (method req = "DELETE") then
             address_delete addressId accessToken
           else
             ret (address_error addressId 405 (VStr "Method not allowed"))
     end)
    bad_request.

(** *** Profile action (src/unnamed/part_004) *)

(** Truthiness of what [form.get] returns. *)
Definition entry_truthy (e : option form_entry) : bool :=
  match e with
  | None | Some (FString "") => false
  | Some _ => true
  end.

(** [getPassword], lines 248-280 *)
Definition getPassword (form : list (string * form_entry)) : outcome string :=
  let currentPassword := form_get "currentPassword" form in
  let newPassword := form_get "newPassword" form in
  let newPasswordConfirm := form_get "newPasswordConfirm" form in
  let passwordError : option thrown := None in
  let passwordError :=
    if entry_truthy newPassword && negb (entry_truthy currentPassword)
    then Some (Error "Current password is required.")
    else passwordError in
  let passwordError :=
    if entry_truthy newPassword
       && negb (bool_decide (newPassword = newPasswordConfirm))
    then Some (Error "New passwords must match.")
    else passwordError in
  let passwordError :=
    if entry_truthy newPassword && entry_truthy currentPassword
       && bool_decide (newPassword = currentPassword)
    then Some (Error "New password must be different than current password.")
    else passwordError in
  match passwordError with
  | Some e => Abrupt e
  | None =>
      let password :=
        if entry_truthy currentPassword && entry_truthy newPassword
        then newPassword else currentPassword in
      Normal (from_option form_entry_string "null" password)
  end.

(** One turn of the loop over [form.entries()] in the profile action. *)
Definition profile_customer_step (customer : list (string * value))
    (entry : string * form_entry) : list (string * value) :=
  let '(key, value) := entry in
  if negb (Str.mem key ["firstName"; "lastName"; "email"; "password"; "phone"])
  then customer
  else
    let customer :=
      if decide (key = "acceptsMarketing") then
        assign "acceptsMarketing"
          (VBool (bool_decide (value = FString "on"))) customer
      else customer in
    match value with
    | FString v =>
        if negb (bool_decide (v = "")) then assign key (VStr v) customer
        else customer
    | FFile _ => customer
    end.

(** The [catch] clause of the profile action:
    [json({error: error.message, customer: null}, {status: 400})]. *)
Definition profile_bad_request (t : thrown) : M world response :=
  let* message :=
    match t with
    | ThrownError _ message => ret (VStr message)
    | ThrownResponse _ => ret VUndefined
    | ThrownValue v => lift (get_prop v "message")
    end in
  ret (json (VObj [("error", message); ("customer", VNull)]) (Some 400) []).

(** [action] of the profile route, lines 34-108: the form is read after
    the method check, before the session and outside the [try]. *)
Definition profile_action (req : incoming) : M world response :=
  if negb (bool_decide (incoming_method req = "PUT")) then
    ret method_not_allowed
  else
    let* form := request_formData req in
    let* customerAccessToken := session_get "customerAccessToken" in
    if negb (truthy customerAccessToken) then
      ret (json (VObj [("error", VStr "Unauthorized")]) (Some 401) [])
    else
      try_catch
        (let* password := lift (getPassword form) in
         let customer := fold_left profile_customer_step form [] in
         let customer :=
           if truthy (VStr password)
           then assign "password" (VStr password) customer
           else customer in
         let* accessToken := lift (get_prop customerAccessToken "accessToken") in
         let* promise :=
           storefront_mutate CUSTOMER_UPDATE_MUTATION
             (VObj [("variables",
                     VObj [("customerAccessToken", accessToken);
                           ("customer", VObj customer)])]) in
         let* updated := await promise in
         let* customerUpdate := lift (get_prop updated "customerUpdate") in
         if has_length (opt_prop customerUpdate "customerUserErrors") then
           let* error :=
             if nullish customerUpdate then ret VUndefined
             else
               let* errors := lift (get_prop customerUpdate "customerUserErrors") in
               lift (get_index errors 0) in
           ret (json (VObj [("error", error)]) (Some 400) [])
         else
           (if truthy (opt_prop (opt_prop customerUpdate "customerAccessToken")
                         "accessToken")
            then session_set "customerAccessToken"
                   (opt_prop customerUpdate "customerAccessToken")
            else ret tt) ;;
           let* cookie := session_commit in
           ret (json (VObj [("error", VNull);
                            ("customer", opt_prop customerUpdate "customer")])
                  None [("Set-Cookie", cookie)]))
        profile_bad_request.

(** *** Root loader (src/app/root.tsx) *)

(** [validateCustomerAccessToken], lines 188-209: whether the customer is
    logged in, and the headers to send. *)
Definition validateCustomerAccessToken (customerAccessToken : value)
  : M world (bool * list (string * string)) :=
  let isLoggedIn := false in
  let headers : list (string * string) := [] in
  if negb (truthy (opt_prop customerAccessToken "accessToken"))
     || negb (truthy (opt_prop customerAccessToken "expiresAt")) then
    ret (isLoggedIn, headers)
  else
    let expiresAt := Date_getTime (opt_prop customerAccessToken "expiresAt") in
    let dateNow := Date_now ctx in
    let customerAccessTokenExpired :=
      match expiresAt with
      | Some t => t <? dateNow
      | None => false
      end in
    if customerAccessTokenExpired then
      session_unset "customerAccessToken" ;;
      let* cookie := session_commit in
      ret (isLoggedIn, headers ++ [("Set-Cookie", cookie)])
    else ret (true, headers).

Definition footer_query_options : value :=
  VObj [("cache", CacheLong ctx);
        ("variables", VObj [("footerMenuHandle", VStr "footer")])].

Definition header_query_options : value :=
  VObj [("cache", CacheLong ctx);
        ("variables", VObj [("headerMenuHandle", VStr "main-menu")])].

(** [loader] of the root route, lines 61-101 *)
Definition root_loader : M world response :=
  let* customerAccessToken := session_get "customerAccessToken" in
  let publicStoreDomain := PUBLIC_STORE_DOMAIN ctx in
  let* validated := validateCustomerAccessToken customerAccessToken in
  let '(isLoggedIn, headers) := validated in
  let* cartPromise := cart_get in
  let* footerPromise := storefront_query FOOTER_QUERY footer_query_options in
  let* headerPromise := storefront_query HEADER_QUERY header_query_options in
  let* header := await headerPromise in
  ret (defer (VObj [("cart", cartPromise);
                    ("footer", footerPromise);
                    ("header", header);
                    ("isLoggedIn", VBool isLoggedIn);
                    ("publicStoreDomain", publicStoreDomain)])
         headers).

(** *** Filter links of the collection page (src/app/components/SortFilter.tsx) *)

Record AppliedFilter := {
  label : string;
  urlParam_key : string;
  urlParam_value : string;
}.

(** The search parameters [getAppliedFilterLink] ends with in its clone. *)
Definition applied_filter_params (filter : AppliedFilter)
    (params : URLSearchParams.t) : URLSearchParams.t :=
  let paramsClone := params in
  if decide (urlParam_key filter = "variantOption") then
    let variantOptions := URLSearchParams.getAll "variantOption" paramsClone in
    let filteredVariantOptions :=
      List.filter
        (fun options => negb (Str.includes options (urlParam_value filter)))
        variantOptions in
    let paramsClone := URLSearchParams.delete (urlParam_key filter) paramsClone in
    fold_left
      (fun clone filteredVariantOption =>
         URLSearchParams.append (urlParam_key filter) filteredVariantOption clone)
      filteredVariantOptions paramsClone
  else URLSearchParams.delete (urlParam_key filter) paramsClone.

(** [getAppliedFilterLink], lines 200-219 *)
Definition getAppliedFilterLink (filter : AppliedFilter)
    (params : URLSearchParams.t) (location_pathname : string) : string :=
  location_pathname +:+ "?" +:+ urlencoded (applied_filter_params filter params).

Inductive FilterType := LIST | PRICE_RANGE | BOOLEAN.

(** [Object.entries(o)] *)
Definition Object_entries (o : value) : outcome (list (string * value)) :=
  match o with
  | VUndefined | VNull =>
      Abrupt (ThrownError "TypeError"
                "Cannot convert undefined or null to object")
  | VObj props => Normal props
  | VArr items => Normal (imap (fun i x => (nat_repr i, x)) items)
  | VStr s =>
      Normal (imap (fun i c => (nat_repr i, VStr (String c EmptyString)))
                (list_ascii_of_string s))
  | _ => Normal []
  end.

(** The parameters object [filterInputToParams] writes to is its state. *)
Definition params_set (k v : string) : M URLSearchParams.t unit :=
  modify (URLSearchParams.set k v).

Definition params_append (k v : string) : M URLSearchParams.t unit :=
  modify (URLSearchParams.append k v).

(** The callback of [Object.entries(input).forEach] in the LIST case *)
Definition list_filter_entry (entry : string * value) : M URLSearchParams.t unit :=
  let '(key, value) := entry in
  match value with
  | VStr s => params_set key s
  | VBool _ => params_set key (to_string value)
  | VUndefined | VNull =>
      throw (ThrownError "TypeError"
               ("Cannot destructure property 'name' of 'value' as it is "
                  +:+ to_string value +:+ "."))
  | _ =>
      let name := opt_prop value "name" in
      let val := opt_prop value "value" in
      let* allVariants := gets (URLSearchParams.getAll "variantOption") in
      let newVariant := to_string name +:+ ":" +:+ to_string val in
      if negb (Str.mem newVariant allVariants) then
        params_append "variantOption" newVariant
      else ret tt
  end.

(** [filterInputToParams], lines 343-375: it writes to [params] and returns
    it. *)
Definition filterInputToParams (type : FilterType) (rawInput : value)
  : M URLSearchParams.t unit :=
  let* input :=
    match rawInput with
    | VStr s =>
        match JSON_parse s with
        | Some v => ret v
        | None => throw (ThrownError "SyntaxError" "Unexpected token")
        end
    | _ => ret rawInput
    end in
  match type with
  | PRICE_RANGE =>
      let* price := lift (get_prop input "price") in
      let* min := lift (get_prop price "min") in
      (if truthy min then params_set "minPrice" (to_string min) else ret tt) ;;
      let* max := lift (get_prop price "max") in
      (if truthy max then params_set "maxPrice" (to_string max) else ret tt)
  | LIST =>
      let* entries := lift (Object_entries input) in
      for_of entries list_filter_entry
  | BOOLEAN => ret tt
  end.

(** [getFilterLink], lines 230-239: the parameters are cloned before they
    are written. *)
Definition getFilterLink (type : FilterType) (rawInput : value)
    (params : URLSearchParams.t) (location_pathname : string)
  : outcome string :=
  match filterInputToParams type rawInput params with
  | (Normal _, newParams) =>
      Normal (location_pathname +:+ "?" +:+ urlencoded newParams)
  | (Abrupt t, _) => Abrupt t
  end.

End Handlers.

(** ** Running a handler *)

(** A handler starts with the session the cookie carried and has made no
    call yet. *)
Definition fresh (s : gmap string value) : world :=
  {| session := s; trace := [] |}.

(** The calls that went out, whether awaited or not. *)
Definition sent (w : world) : list (callee * value) :=
  omap (fun e => match e with Sent c o => Some (c, o) | Awaited _ _ => None end)
    (trace w).

(** The calls the handler waited for. *)
Definition awaited (w : world) : list (callee * value) :=
  omap (fun e => match e with Awaited c o => Some (c, o) | Sent _ _ => None end)
    (trace w).

(** The routes that show one resource of the shop. *)
Inductive resource_route :=
| CollectionRoute
| ProductRoute
| BlogRoute
| OrderRoute.

Definition resource_loader `{Platform} (ctx : context) (r : resource_route)
    (req : request) (params : gmap string string) : M world response :=
  match r with
  | CollectionRoute => collection_loader ctx req params
  | ProductRoute => product_loader ctx req params
  | BlogRoute => blog_loader ctx req params
  | OrderRoute => order_loader ctx params
  end.

(** The query that fetches the resource, and the field of the answer that
    holds it. *)
Definition resource_document (r : resource_route) : document :=
  match r with
  | CollectionRoute => COLLECTION_QUERY
  | ProductRoute => PRODUCT_QUERY
  | BlogRoute => BLOGS_QUERY
  | OrderRoute => CUSTOMER_ORDER_QUERY
  end.

Definition resource_field (r : resource_route) : string :=
  match r with
  | CollectionRoute => "collection"
  | ProductRoute => "product"
  | BlogRoute => "blog"
  | OrderRoute => "order"
  end.

(** A form field that is absent or holds the empty string. *)
Definition blank (k : string) (form : list (string * form_entry)) : Prop :=
  assoc k form = None \/ assoc k form = Some (FString "").

(** The customer access token in the answer to the login mutation:
    [data?.customerAccessTokenCreate?.customerAccessToken]. *)
Definition login_token (data : value) : value :=
  opt_prop (opt_prop data "customerAccessTokenCreate") "customerAccessToken".




(** ** Writes to the search parameters *)

(** The two ways the filter encoder writes: overwrite a key, or add a
    variantOption entry unless it is there already. *)
Inductive param_write :=
| Overwrite (k v : string)
| AddVariant (v : string).

Definition write (o : param_write) (params : URLSearchParams.t)
  : URLSearchParams.t :=
  match o with
  | Overwrite k v => URLSearchParams.set k v params
  | AddVariant v =>
      if Str.mem v (URLSearchParams.getAll "variantOption" params)
      then params
      else URLSearchParams.append "variantOption" v params
  end.

Definition writes (ws : list param_write) (params : URLSearchParams.t)
  : URLSearchParams.t :=
  fold_left (fun p o => write o p) ws params.

(** The key a write touches. *)
Definition write_key (o : param_write) : string :=
  match o with
  | Overwrite k _ => k
  | AddVariant _ => "variantOption"
  end.

(** Two writes do not step on each other: both add variants, or they
    touch different keys. *)
Definition independent (o o' : param_write) : Prop :=
  match o, o' with
  | AddVariant _, AddVariant _ => True
  | _, _ => write_key o <> write_key o'
  end.

Fixpoint independent_writes (ws : list param_write) : Prop :=
  match ws with
  | [] => True
  | o :: rest => Forall (independent o) rest /\ independent_writes rest
  end.

(** What a write leaves behind: an overwritten key has the one value, an
    added variant is among the variant options. *)
Definition settled (o : param_write) (params : URLSearchParams.t) : Prop :=
  match o with
  | Overwrite k v => URLSearchParams.getAll k params = [v]
  | AddVariant v => v ∈ URLSearchParams.getAll "variantOption" params
  end.

(** The write a property of a LIST input stands for; none for a nullish
    value, on which the encoder throws. *)
Definition entry_write (entry : string * value) : option param_write :=
  match snd entry with
  | VStr s => Some (Overwrite (fst entry) s)
  | VBool b => Some (Overwrite (fst entry) (to_string (VBool b)))
  | VUndefined | VNull => None
  | v =>
      Some (AddVariant (to_string (opt_prop v "name") +:+ ":"
                          +:+ to_string (opt_prop v "value")))
  end.

(** The writes of a PRICE_RANGE input with the given bounds. *)
Definition price_writes (min max : value) : list param_write :=
  (if truthy min then [Overwrite "minPrice" (to_string min)] else [])
    ++ (if truthy max then [Overwrite "maxPrice" (to_string max)] else []).

(** The input a raw input stands for: a string is parsed as JSON. *)
Definition input_of `{Platform} (rawInput : value) : option value :=
  match rawInput with
  | VStr s => JSON_parse s
  | _ => Some rawInput
  end.

Definition is_scalar (v : value) : Prop :=
  match v with
  | VStr _ | VBool _ => True
  | _ => False
  end.

(** The inputs the encoder is given: a LIST input whose properties are all
    variant options (objects), a LIST input whose properties are all
    strings or booleans, or a PRICE_RANGE input with a price object. *)
Inductive filter_input : FilterType -> value -> Prop :=
| variant_option_input (props : list (string * value)) :
    Forall (fun kv => exists fields, snd kv = VObj fields) props ->
    filter_input LIST (VObj props)
| scalar_input (props : list (string * value)) :
    NoDup (fst <$> props) ->
    Forall (fun kv => is_scalar (snd kv)) props ->
    filter_input LIST (VObj props)
| price_range_input (input price : value) :
    get_prop input "price" = Normal price ->
    nullish price = false ->
    filter_input PRICE_RANGE input.

(** ** Sample data *)

(** A platform for the examples: text is taken as it is, and the years
    2020 and 2030 are the only dates. *)
Definition sample_platform : Platform :=
  {| ToNumber := fun s => s;
     Date_getTime :=
       fun v =>
         match v with
         | VStr "2030" => Some 2030
         | VStr "2020" => Some 2020
         | _ => None
         end;
     atob := fun s => Some s;
     decodeURIComponent := fun s => Some s;
     JSON_parse := fun _ => None;
     getPaginationVariables := fun _ pageBy => [("first", VNum "8")];
     getSelectedProductOptions := fun req => searchParams req;
     flattenConnection := fun v => get_prop v "nodes";
     getVariantUrl := fun path _ _ _ => Normal path;
     urlencoded :=
       fun params =>
         Str.join "&" ((fun kv => fst kv +:+ "=" +:+ snd kv) <$> params) |}.

(** A context whose API answers every call with [answer]. *)
Definition sample_context (answer : reply) : context :=
  {| storefront_reply := fun _ _ => answer;
     i18n_country := VStr "US";
     i18n_language := VStr "EN";
     CacheLong := VStr "long";
     CacheNone := VStr "none";
     commitSession :=
       fun s =>
         "session="
           +:+ to_string
                 (opt_prop (default VNull (s !! "customerAccessToken"))
                    "accessToken");
     PUBLIC_STORE_DOMAIN := VStr "shop.example";
     Date_now := 2025 |}.

Definition sample_request (m : string) (form : list (string * form_entry))
  : request :=
  {| method := m; pathname := "/"; searchParams := []; formData := form |}.

(** A customer access token as the API returns it, and the answers of the
    login and reset mutations that carry it. *)
Definition sample_token (expiresAt : string) : value :=
  VObj [("accessToken", VStr "tok"); ("expiresAt", VStr expiresAt)].

Definition sample_login_answer : reply :=
  Resolved
    (VObj [("customerAccessTokenCreate",
            VObj [("customerUserErrors", VArr []);
                  ("customerAccessToken", sample_token "2030")])]).

Definition sample_reset_answer : reply :=
  Resolved
    (VObj [("customerReset",
            VObj [("customerUserErrors", VArr []);
                  ("customerAccessToken", sample_token "2030")])]).

Definition sample_login_form : list (string * form_entry) :=
  [("email", FString "ada@example.com"); ("password", FString "hunter22")].

Definition sample_reset_params : gmap string string :=
  {[ "id" := "42"; "resetToken" := "r3s3t" ]}.

(** The validator's reading of a token: both fields are there, and the
    expiry is a time before now. *)
Definition token_present (token : value) : Prop :=
  truthy (opt_prop token "accessToken") = true
  /\ truthy (opt_prop token "expiresAt") = true.

Definition token_expired `{Platform} (ctx : context) (token : value) : Prop :=
  exists t : Z,
    Date_getTime (opt_prop token "expiresAt") = Some t /\ t < Date_now ctx.

Definition sample_variant_input : value :=
  VObj [("variantOption",
         VObj [("name", VStr "Color"); ("value", VStr "Red")])].

(** ** Further routes *)

(** The documents of the routes below. *)
Inductive further_document :=
| CUSTOMER_QUERY
| CUSTOMER_ORDERS_QUERY
| CUSTOMER_ACTIVATE_MUTATION
| CUSTOMER_RECOVER_MUTATION
| POLICIES_QUERY
| ARTICLE_QUERY.

(** The state of a handler that sends these documents: the world of the
    handlers above, and the further calls made, each awaited where it is
    made. *)
Record site := {
  base : world;
  asked : list (further_document * value);
}.

Definition visit (s : gmap string value) : site :=
  {| base := fresh s; asked := [] |}.

(** A handler of the base world, run inside a site. *)
Definition on_base {A} (m : M world A) : M site A :=
  fun st =>
    match m (base st) with
    | (o, w) => (o, {| base := w; asked := asked st |})
    end.

Section FurtherRoutes.

Context `{Platform}.
Variable ctx : context.

(** What the hosted API answers to the further documents. *)
Variable api : further_document -> value -> reply.

(** [await storefront.query(doc, options)] and
    [await storefront.mutate(doc, options)] *)
Definition ask (d : further_document) (options : value) : M site value :=
  modify (fun st => {| base := base st; asked := asked st ++ [(d, options)] |}) ;;
  match api d options with
  | Resolved data => ret data
  | Rejected t => throw t
  end.

(** *** Loaders that only look at the session *)

(** [loader] of the login route (src/app/routes/_auth.account_.login.tsx,
    lines 35-40); the loaders of the activation and recovery routes
    (src/unnamed/part_001, lines 22-27 and 179-186) read the same. *)
Definition login_loader : M world response :=
  let* customerAccessToken := session_get "customerAccessToken" in
  if truthy customerAccessToken then ret (redirect "/account" None [])
  else ret (json (VObj []) None []).

Definition activate_loader : M world response := login_loader.

Definition recover_loader : M world response := login_loader.

(** [loader] of the addresses route (src/unnamed/part_002, lines 38-45);
    the loader of the profile route (src/unnamed/part_004, lines 26-32)
    reads the same. *)
Definition addresses_loader : M world response :=
  let* customerAccessToken := session_get "customerAccessToken" in
  if negb (truthy customerAccessToken) then
    ret (redirect "/account/login" None [])
  else ret (json (VObj []) None []).

Definition profile_loader : M world response := addresses_loader.

(** *** Account layout (second module of src/unnamed/part_004) *)

(** A line terminator, which [.] of a regular expression does not match:
    LF, CR, and U+2028 and U+2029 in their UTF-8 bytes. *)
Fixpoint has_line_terminator (s : string) : bool :=
  match s with
  | EmptyString => false
  | String c rest =>
      bool_decide (c = "010"%char) || bool_decide (c = "013"%char)
      || String.prefix
           (String "226"%char (String "128"%char (String "168"%char EmptyString)))
           s
      || String.prefix
           (String "226"%char (String "128"%char (String "169"%char EmptyString)))
           s
      || has_line_terminator rest
  end.

(** [^prefix.*$] on a text *)
Definition starts_line (prefix s : string) : bool :=
  String.prefix prefix s
  && negb (has_line_terminator
             (String.substring (String.length prefix)
                (String.length s - String.length prefix) s)).

(** The test of the pathname against the pattern of the private routes:
    /account/ followed by orders, profile or addresses, where orders and
    addresses may go on with a slash and anything on the same line. *)
Definition is_private_route (pathname : string) : bool :=
  bool_decide (pathname = "/account/orders")
  || starts_line "/account/orders/" pathname
  || bool_decide (pathname = "/account/profile")
  || bool_decide (pathname = "/account/addresses")
  || starts_line "/account/addresses/" pathname.

Definition customer_query_options (accessToken : value) : value :=
  VObj [("variables",
         VObj [("customerAccessToken", accessToken);
               ("country", i18n_country ctx);
               ("language", i18n_language ctx)]);
        ("cache", CacheNone ctx)].

(** The way out of the account pages: the token is dropped and the cookie
    is committed on the redirect to the login page. *)
Definition logout_to_login : M site response :=
  on_base (session_unset "customerAccessToken") ;;
  let* cookie := on_base (session_commit ctx) in
  ret (redirect "/account/login" None [("Set-Cookie", cookie)]).

(** [loader] of the account layout, lines 323-390 *)
Definition account_loader (req : request) : M site response :=
  let pathname := pathname req in
  let* customerAccessToken := on_base (session_get "customerAccessToken") in
  let isLoggedIn := truthy (opt_prop customerAccessToken "accessToken") in
  let isAccountHome :=
    bool_decide (pathname = "/account") || bool_decide (pathname = "/account/") in
  let isPrivateRoute := is_private_route pathname in
  if negb isLoggedIn then
    if isPrivateRoute || isAccountHome then logout_to_login
    else
      ret (json (VObj [("isLoggedIn", VBool false);
                       ("isAccountHome", VBool isAccountHome);
                       ("isPrivateRoute", VBool isPrivateRoute);
                       ("customer", VNull)])
             None [])
  else if isAccountHome then ret (redirect "/account/orders" None [])
  else
    try_catch
      (let* accessToken := lift (get_prop customerAccessToken "accessToken") in
       let* data := ask CUSTOMER_QUERY (customer_query_options accessToken) in
       let* customer := lift (get_prop data "customer") in
       if negb (truthy customer) then throw (Error "Customer not found")
       else
         ret (json (VObj [("isLoggedIn", VBool isLoggedIn);
                          ("isPrivateRoute", VBool isPrivateRoute);
                          ("isAccountHome", VBool isAccountHome);
                          ("customer", customer)])
                None
                [("Cache-Control", "no-cache, no-store, must-revalidate")]))
      (fun error => logout_to_login).

(** *** Orders list (src/app/routes/account.orders._index.tsx) *)

Definition orders_query_options (req : request) (accessToken : value) : value :=
  VObj [("variables",
         VObj (spread [("customerAccessToken", accessToken);
                       ("country", i18n_country ctx);
                       ("language", i18n_language ctx)]
                 (getPaginationVariables req 20)));
        ("cache", CacheNone ctx)].

(** The [catch] clause of the account actions, in a site. *)
Definition bad_request_site (t : thrown) : M site response :=
  ret (json (VObj [("error", caught_value t)]) (Some 400) []).

(** [loader] of the orders route, lines 22-56 *)
Definition orders_loader (req : request) : M site response :=
  let* customerAccessToken := on_base (session_get "customerAccessToken") in
  if negb (truthy (opt_prop customerAccessToken "accessToken")) then
    ret (redirect "/account/login" None [])
  else
    try_catch
      (let* accessToken := lift (get_prop customerAccessToken "accessToken") in
       let* data :=
         ask CUSTOMER_ORDERS_QUERY (orders_query_options req accessToken) in
       let* customer := lift (get_prop data "customer") in
       if negb (truthy customer) then throw (Error "Customer not found")
       else ret (json (VObj [("customer", customer)]) None []))
      bad_request_site.

(** *** Policies (second module of src/app/routes/account.orders._index.tsx) *)

(** [Object.values(o)] *)
Definition Object_values (o : value) : outcome (list value) :=
  match Object_entries o with
  | Normal entries => Normal (snd <$> entries)
  | Abrupt t => Abrupt t
  end.

(** [loader] of the policies route, lines 227-236 *)
Definition policies_loader : M site response :=
  let* data := ask POLICIES_QUERY VUndefined in
  let* shop := lift (get_prop data "shop") in
  let* policies := lift (Object_values (if truthy shop then shop else VObj [])) in
  if negb (truthy (VNum (nat_repr (length policies)))) then
    throw (ThrownResponse (Response (Some "No policies found") 404))
  else ret (json (VObj [("policies", VArr policies)]) None []).

(** *** Article (src/app/routes/blogs.$blogHandle.$articleHandle.tsx) *)

(** [loader] of the article route, lines 10-28 *)
Definition article_loader (params : gmap string string) : M site response :=
  let blogHandle := param params "blogHandle" in
  let articleHandle := param params "articleHandle" in
  if negb (truthy articleHandle) || negb (truthy blogHandle) then
    throw (ThrownResponse (Response (Some "Not found") 404))
  else
    let* data :=
      ask ARTICLE_QUERY
        (VObj [("variables",
                VObj [("blogHandle", blogHandle);
                      ("articleHandle", articleHandle)])]) in
    let* blog := lift (get_prop data "blog") in
    if negb (truthy (opt_prop blog "articleByHandle")) then
      throw (ThrownResponse (Response None 404))
    else
      let* article := lift (get_prop blog "articleByHandle") in
      ret (json (VObj [("article", article)]) None []).

(** *** Activation and recovery (src/unnamed/part_001) *)

(** [form.has(k) ? String(form.get(k)) : null] *)
Definition form_text_or_null (k : string) (form : list (string * form_entry))
  : value :=
  if form_has k form
  then VStr (from_option form_entry_string "null" (form_get k form))
  else VNull.

Definition activate_options (id password activationToken : value) : value :=
  VObj [("variables",
         VObj [("id", VStr ("gid://shopify/Customer/" +:+ to_string id));
               ("input",
                VObj [("password", password);
                      ("activationToken", activationToken)])])].

(** [a === b] on what [form_text_or_null] gives: strings and [null] *)
Definition same_text (a b : value) : bool :=
  match a, b with
  | VStr x, VStr y => bool_decide (x = y)
  | VNull, VNull => true
  | _, _ => false
  end.

(** [action] of the activation route, lines 29-88 *)
Definition activate_action (req : request) (params : gmap string string)
  : M site response :=
  let id := param params "id" in
  let activationToken := param params "activationToken" in
  if negb (bool_decide (method req = "POST")) then ret method_not_allowed
  else
    try_catch
      (if negb (truthy id) || negb (truthy activationToken) then
         throw (Error "Missing token. The link you followed might be wrong.")
       else
         let form := formData req in
         let password := form_text_or_null "password" form in
         let passwordConfirm := form_text_or_null "passwordConfirm" form in
         let validPasswords :=
           js_and (js_and password passwordConfirm)
             (VBool (same_text password passwordConfirm)) in
         if negb (truthy validPasswords) then
           throw (Error "Passwords do not match")
         else
           let* data :=
             ask CUSTOMER_ACTIVATE_MUTATION
               (activate_options id password activationToken) in
           let* customerActivate := lift (get_prop data "customerActivate") in
           (if has_length (opt_prop customerActivate "customerUserErrors") then
              let* errors := lift (get_prop customerActivate "customerUserErrors") in
              let* error := lift (get_index errors 0) in
              let* message := lift (get_prop error "message") in
              throw (Error_of message)
            else ret tt) ;;
           let customerAccessToken :=
             opt_prop customerActivate "customerAccessToken" in
           if negb (truthy customerAccessToken) then
             throw (Error "Could not activate account.")
           else
             on_base (session_set "customerAccessToken" customerAccessToken) ;;
             let* cookie := on_base (session_commit ctx) in
             ret (redirect "/account" None [("Set-Cookie", cookie)]))
      bad_request_site.

(** [action] of the recovery route, lines 188-213: the form is read
    first, before the method check and outside the [try]. *)
Definition recover_action (req : incoming) : M site response :=
  let* form := request_formData req in
  let email := form_text_or_null "email" form in
  if negb (bool_decide (incoming_method req = "POST")) then
    ret method_not_allowed
  else
    try_catch
      (if negb (truthy email) then throw (Error "Please provide an email.")
       else
         ask CUSTOMER_RECOVER_MUTATION
           (VObj [("variables", VObj [("email", email)])]) ;;
         ret (json (VObj [("resetRequested", VBool true)]) None []))
      (fun error =>
         let resetRequested := false in
         ret (json (VObj [("error", caught_value error);
                          ("resetRequested", VBool resetRequested)])
                (Some 400) [])).

End FurtherRoutes.

(** ** Further helpers of the filter drawer (src/app/components/SortFilter.tsx) *)

Section FilterDrawer.

Context `{Platform}.

(** [entries.some(test)]: it stops at the first entry that passes. *)
Fixpoint some_entry (test : string * value -> outcome bool)
    (entries : list (string * value)) : outcome bool :=
  match entries with
  | [] => Normal false
  | entry :: rest =>
      match test entry with
      | Abrupt t => Abrupt t
      | Normal true => Normal true
      | Normal false => some_entry test rest
      end
  end.

(** The callback of [some] in [isFilterActive] *)
Definition filter_entry_active (params : URLSearchParams.t)
    (entry : string * value) : outcome bool :=
  let '(key, value) := entry in
  match value with
  | VStr s => Normal (bool_decide (URLSearchParams.get key params = Some s))
  | VBool _ =>
      Normal (bool_decide (URLSearchParams.get key params
                           = Some (to_string value)))
  | VUndefined | VNull =>
      Abrupt (ThrownError "TypeError"
                ("Cannot destructure property 'name' of 'value' as it is "
                   +:+ to_string value +:+ "."))
  | _ =>
      let name := opt_prop value "name" in
      let val := opt_prop value "value" in
      let variantValue := to_string name +:+ ":" +:+ to_string val in
      Normal (Str.mem variantValue
                (URLSearchParams.getAll "variantOption" params))
  end.

(** [isFilterActive], lines 241-271 *)
Definition isFilterActive (type : FilterType) (rawInput : value)
    (params : URLSearchParams.t) : outcome bool :=
  match
    match rawInput with
    | VStr s =>
        match JSON_parse s with
        | Some v => Normal v
        | None => Abrupt (ThrownError "SyntaxError" "Unexpected token")
        end
    | _ => Normal rawInput
    end
  with
  | Abrupt t => Abrupt t
  | Normal input =>
      match type with
      | LIST =>
          match Object_entries input with
          | Abrupt t => Abrupt t
          | Normal entries => some_entry (filter_entry_active params) entries
          end
      | PRICE_RANGE => Normal false
      | BOOLEAN => Normal false
      end
  end.

(** [getSortLink], lines 221-228: it writes to the parameters it is
    given. *)
Definition getSortLink (sort : string) (location_pathname : string)
  : M URLSearchParams.t string :=
  params_set "sort" sort ;;
  let* params := gets (fun params => params) in
  ret (location_pathname +:+ "?" +:+ urlencoded params).

(** The items of [SortMenu], lines 378-396 *)
Definition sort_menu_items : list (string * string) :=
  [("Featured", "featured");
   ("Price: Low - High", "price-low-high");
   ("Price: High - Low", "price-high-low");
   ("Best Selling", "best-selling");
   ("Newest", "newest")].

(** [items.map(f)] with a callback that writes to the state *)
Fixpoint map_m {S A B} (f : A -> M S B) (items : list A) : M S (list B) :=
  match items with
  | [] => ret []
  | x :: rest =>
      let* y := f x in
      let* ys := map_m f rest in
      ret (y :: ys)
  end.

(** The label [SortMenu] shows as active, lines 399 and 407: the item of
    the sort parameter, or the first item. *)
Definition sort_menu_active (params : URLSearchParams.t) : string :=
  match
    List.find
      (fun item => bool_decide (Some (snd item) = URLSearchParams.get "sort" params))
      sort_menu_items
  with
  | Some item => fst item
  | None => "Featured"
  end.

(** The links [SortMenu] renders, lines 413-419: one call of [getSortLink]
    per item, all on the parameters the component holds. *)
Definition sort_menu_links (location_pathname : string)
  : M URLSearchParams.t (list string) :=
  map_m (fun item => getSortLink (snd item) location_pathname) sort_menu_items.

(** The callback [PriceRangeFilter] hands to [useDebounce], lines 287-300,
    on the two input texts and the bounds the component was given; it
    returns where it navigates, if it does. *)
Definition price_range_effect (minPrice maxPrice : string) (min max : value)
    (location_pathname : string) : M URLSearchParams.t (option string) :=
  if (bool_decide (minPrice = "") || bool_decide (minPrice = to_string min))
     && (bool_decide (maxPrice = "") || bool_decide (maxPrice = to_string max))
  then ret None
  else
    let price : list (string * value) := [] in
    let price :=
      if negb (bool_decide (minPrice = ""))
      then assign "min" (VStr minPrice) price else price in
    let price :=
      if negb (bool_decide (maxPrice = ""))
      then assign "max" (VStr maxPrice) price else price in
    filterInputToParams PRICE_RANGE (VObj [("price", VObj price)]) ;;
    let* newParams := gets (fun params => params) in
    ret (Some (location_pathname +:+ "?" +:+ urlencoded newParams)).

End FilterDrawer.

(** The text before the first colon. *)
Fixpoint before_colon (s : string) : string :=
  match s with
  | EmptyString => EmptyString
  | String c rest =>
      if Ascii.eqb c ":" then EmptyString else String c (before_colon rest)
  end.

(** A text without a colon. *)
Definition colon_free (s : string) : Prop := before_colon s = s.

(** A field of the customer update as the profile action may send it: one
    of the five names, with a text that is not empty. *)
Definition customer_field (kv : string * value) : Prop :=
  fst kv ∈ ["firstName"; "lastName"; "email"; "password"; "phone"]
  /\ exists text : string, snd kv = VStr text /\ text <> "".

(** An applied filter that points at an entry of the search parameters. *)
Definition points_at (params : URLSearchParams.t) (applied : value) : Prop :=
  exists (text : value) (k v : string),
    applied
    = VObj [("label", text);
            ("urlParam", VObj [("key", VStr k); ("value", VStr v)])]
    /\ (k, v) ∈ params.

(** The route parameter that names the resource. *)
Definition resource_param (r : resource_route) : string :=
  match r with
  | CollectionRoute => "handle"
  | ProductRoute => "handle"
  | BlogRoute => "blogHandle"
  | OrderRoute => "id"
  end.

(** The id a resource loader asks for: the route parameter, which the
    order route decodes first. *)
Definition resource_id `{Platform} (r : resource_route) (key : string)
  : option string :=
  match r with
  | OrderRoute => atob key
  | _ => Some key
  end.

(** The options a resource loader sends with its query for an id. *)
Definition resource_query_options `{Platform} (ctx : context)
    (r : resource_route) (req : request) (id : string) : value :=
  match r with
  | CollectionRoute => fst (collection_query_options ctx req id)
  | ProductRoute => product_query_options req id
  | BlogRoute => blog_query_options req id
  | OrderRoute => order_query_options id
  end.

(** ** Components of the product page (src/unnamed/part_003) *)

(** [ProductBadges], lines 183-209: the label and the variant of each
    badge. *)
Definition ProductBadges (selectedVariant : value) : list (string * string) :=
  let badges := [] in
  let badges :=
    if truthy (opt_prop selectedVariant "compareAtPrice")
    then badges ++ [("Sale", "destructive")] else badges in
  let badges :=
    if negb (truthy (opt_prop selectedVariant "availableForSale"))
    then badges ++ [("Sold out", "outline")] else badges in
  badges.

(** What [ProductForm], lines 232-267, hands to [AddToCartButton]. *)
Record add_to_cart := {
  disabled : bool;
  lines : list value;
  children : string;
}.

Definition ProductForm (selectedVariant : value) : outcome add_to_cart :=
  match
    if negb (truthy selectedVariant) then Normal true
    else
      match get_prop selectedVariant "availableForSale" with
      | Normal available => Normal (negb (truthy available))
      | Abrupt t => Abrupt t
      end
  with
  | Abrupt t => Abrupt t
  | Normal disabled =>
      match
        if truthy selectedVariant then
          match get_prop selectedVariant "id" with
          | Normal id =>
              Normal [VObj [("merchandiseId", id); ("quantity", VNum "1")]]
          | Abrupt t => Abrupt t
          end
        else Normal []
      with
      | Abrupt t => Abrupt t
      | Normal lines =>
          Normal
            {| disabled := disabled;
               lines := lines;
               children :=
                 if truthy (opt_prop selectedVariant "availableForSale")
                 then "Add to cart" else "Sold out" |}
      end
  end.

(** ** The quantity buttons of a cart line (src/unnamed/part_005) *)

(** [CartLineQuantity], lines 391-425, on a line whose quantity is an
    integer, as the API's Int is: the quantities the two buttons submit and
    whether the decrease button is disabled. On integers below 2^53 the
    arithmetic is exact and [Number(n.toFixed(0))] is [n]. *)
Record quantity_buttons := {
  prevQuantity : Z;
  nextQuantity : Z;
  decrease_disabled : bool;
}.

Definition CartLineQuantity (quantity : Z) : quantity_buttons :=
  {| prevQuantity := Z.max 0 (quantity - 1);
     nextQuantity := quantity + 1;
     decrease_disabled := quantity <=? 1 |}.

(** ** Sample data of the further routes *)

(** An API for the further documents: it knows one customer and a shop
    with one policy that is not written yet, and answers every other call
    with an empty object. *)
Definition sample_api (d : further_document) (options : value) : reply :=
  match d with
  | CUSTOMER_QUERY =>
      Resolved (VObj [("customer", VObj [("firstName", VStr "Ada")])])
  | POLICIES_QUERY =>
      Resolved (VObj [("shop", VObj [("privacyPolicy", VNull)])])
  | _ => Resolved (VObj [])
  end.

(** A GET of a page. *)
Definition sample_page (path : string) : request :=
  {| method := "GET"; pathname := path; searchParams := []; formData := [] |}.

Definition sample_session : gmap string value :=
  {[ "customerAccessToken" := sample_token "2030" ]}.

Definition sample_product : value :=
  VObj [("id", VStr "gid://shopify/Product/1");
        ("handle", VStr "boot");
        ("variants",
         VObj [("nodes",
                VArr [VObj [("selectedOptions",
                             VArr [VObj [("name", VStr "Title");
                                         ("value", VStr "Default Title")]])]])])].

(** * Properties *)

(** C5. The sort decoder answers on every parameter: the five known
    values give their key and direction, and an absent parameter or any
    other text gives RELEVANCE, not reversed. *)
Theorem getSortValuesFromParam_table :
  getSortValuesFromParam (Some "price-high-low")
    = {| sortKey := "PRICE"; reverse := true |} /\
  getSortValuesFromParam (Some "price-low-high")
    = {| sortKey := "PRICE"; reverse := false |} /\
  getSortValuesFromParam (Some "best-selling")
    = {| sortKey := "BEST_SELLING"; reverse := false |} /\
  getSortValuesFromParam (Some "newest")
    = {| sortKey := "CREATED"; reverse := true |} /\
  getSortValuesFromParam (Some "featured")
    = {| sortKey := "MANUAL"; reverse := false |} /\
  getSortValuesFromParam None
    = {| sortKey := "RELEVANCE"; reverse := false |} /\
  (forall s : string,
      s ∉ ["price-high-low"; "price-low-high"; "best-selling";
           "newest"; "featured"] ->
      getSortValuesFromParam (Some s)
        = {| sortKey := "RELEVANCE"; reverse := false |}).
Proof.
  repeat split; try reflexivity.
  intros s Hs. unfold getSortValuesFromParam.
  repeat case_decide; try reflexivity; subst; exfalso; apply Hs; set_solver.
Qed.

Lemma nullish_falsy (v : value) : nullish v = true -> truthy v = false.
Proof. by destruct v. Qed.

Lemma nullish_opt_prop (v : value) (k : string) :
  nullish v = true -> opt_prop v k = VUndefined.
Proof. by destruct v. Qed.

Lemma form_text_blank (k : string) (form : list (string * form_entry)) :
  blank k form -> form_text k form = "".
Proof. unfold form_text, form_has, form_get. by intros [-> | ->]. Qed.

(** [Boolean(a && b)] is false as soon as one of the two texts is empty. *)
Lemma invalid_inputs (a b : string) :
  a = "" \/ b = "" -> truthy (js_and (VStr a) (VStr b)) = false.
Proof.
  intros [-> | ->]; [done|]. unfold js_and.
  by destruct (truthy (VStr a)) eqn:E.
Qed.

Lemma opt_prop_get (o : value) (k : string) (a : value) :
  get_prop o k = Normal a -> opt_prop o k = a.
Proof. unfold opt_prop. by intros ->. Qed.

Lemma get_prop_defined (o : value) (k : string) :
  nullish o = false -> get_prop o k = Normal (opt_prop o k).
Proof.
  intros Hnn. unfold opt_prop.
  destruct o; try done; simpl; by case_decide.
Qed.

Lemma opt_prop_abrupt (o : value) (k : string) (t : thrown) :
  get_prop o k = Abrupt t -> opt_prop o k = VUndefined.
Proof. unfold opt_prop. by intros ->. Qed.

(** Replace optional reads by what the plain read of the same property is
    known to give. *)
Ltac opt_props :=
  repeat match goal with
         | G : get_prop ?o ?k = Normal ?a, H : context [opt_prop ?o ?k] |- _ =>
             rewrite (opt_prop_get o k a G) in H
         | G : get_prop ?o ?k = Normal ?a |- context [opt_prop ?o ?k] =>
             rewrite (opt_prop_get o k a G)
         | G : get_prop ?o ?k = Abrupt ?t, H : context [opt_prop ?o ?k] |- _ =>
             rewrite (opt_prop_abrupt o k t G) in H
         | G : get_prop ?o ?k = Abrupt ?t |- context [opt_prop ?o ?k] =>
             rewrite (opt_prop_abrupt o k t G)
         end.

Ltac run_handler :=
  repeat (progress unfold storefront_query, storefront_mutate, cart_get,
            await, session_get, session_set, session_unset, session_commit,
            log, gets, modify, try_catch, lift, throw, ret, bind, fresh in *);
  simpl in *.

(** Case analysis on everything the run in [Hin] branches on, innermost
    scrutinee first. *)
Ltac split_run Hin :=
  repeat match type of Hin with
         | context [match ?x with _ => _ end] =>
             lazymatch x with
             | context [match _ with _ => _ end] => fail
             | _ => destruct x eqn:?; simpl in *
             end
         end.

(** ** Missing resources *)

Section MissingResource.

Context `{Platform}.
Variable ctx : context.

(** C1. On a resource route (collection, product, blog, order), a request
    that names a resource (and, on the order route, has an id that decodes
    and a session with a customer access token) has the loader ask the
    storefront API for it and wait for the answer; when the answer holds
    none under the resource's field (null or absent), the loader throws a
    response with status 404. *)
Theorem resource_not_found (r : resource_route) (req : request)
    (params : gmap string string) (s : gmap string value)
    (key id : string) (fields : list (string * value)) :
  params !! resource_param r = Some key ->
  key <> "" ->
  resource_id r key = Some id ->
  (r = OrderRoute ->
   truthy (default VUndefined (s !! "customerAccessToken")) = true) ->
  storefront_reply ctx (StorefrontQuery (resource_document r))
    (resource_query_options ctx r req id)
  = Resolved (VObj fields) ->
  nullish (default VUndefined (assoc (resource_field r) fields)) = true ->
  exists (resp : response) (w : world),
    resource_loader ctx r req params (fresh s)
    = (Abrupt (ThrownResponse resp), w)
    /\ status resp = 404
    /\ awaited w
       = [(StorefrontQuery (resource_document r),
           resource_query_options ctx r req id)]
    /\ session w = s.
Proof.
  intros Hkey Hne Hid Hsigned Hreply Hnull.
  pose proof (nullish_falsy _ Hnull) as Hfalsy.
  pose proof (nullish_opt_prop _ "id" Hnull) as Hproduct.
  pose proof (nullish_opt_prop _ "articles" Hnull) as Harticles.
  destruct key as [|a key]; [done|].
  destruct r; simpl in *; simplify_eq.
  - unfold collection_loader. rewrite Hkey.
    destruct (collection_query_options ctx req (String a key))
      as [options applied].
    simpl in Hreply. run_handler. rewrite Hreply. simpl. rewrite Hfalsy.
    simpl. by eexists _, _.
  - unfold product_loader. rewrite Hkey.
    run_handler. rewrite Hreply. simpl.
    unfold opt_prop in Hproduct. simpl in Hproduct.
    unfold opt_prop. simpl. rewrite Hproduct. simpl. by eexists _, _.
  - unfold blog_loader. rewrite Hkey.
    run_handler. rewrite Hreply. simpl. rewrite Harticles. simpl.
    by eexists _, _.
  - unfold order_loader. rewrite Hkey, Hid.
    run_handler. rewrite (Hsigned eq_refl). simpl. rewrite Hreply. simpl.
    rewrite Hfalsy. simpl. by eexists _, _.
Qed.

End MissingResource.

Lemma resource_not_found_witness :
  let missing (r : resource_route) (ctx : context)
        (params : gmap string string) (s : gmap string value) (id : string) :=
    exists (resp : response) (w : world),
      resource_loader (H := sample_platform) ctx r (sample_request "GET" [])
        params (fresh s)
      = (Abrupt (ThrownResponse resp), w)
      /\ status resp = 404
      /\ awaited w
         = [(StorefrontQuery (resource_document r),
             resource_query_options (H := sample_platform) ctx r
               (sample_request "GET" []) id)]
      /\ session w = s in
  missing CollectionRoute
    (sample_context (Resolved (VObj [("collection", VNull)])))
    {[ "handle" := "shoes" ]} ∅ "shoes"
  /\ missing ProductRoute (sample_context (Resolved (VObj [])))
       {[ "handle" := "boot" ]} ∅ "boot"
  /\ missing BlogRoute (sample_context (Resolved (VObj [("blog", VNull)])))
       {[ "blogHandle" := "news" ]} ∅ "news"
  /\ missing OrderRoute (sample_context (Resolved (VObj [("order", VNull)])))
       {[ "id" := "Z2lkOi8v" ]} sample_session "Z2lkOi8v".
Proof.
  repeat split.
  - apply (resource_not_found (H := sample_platform)
             (sample_context (Resolved (VObj [("collection", VNull)])))
             CollectionRoute (sample_request "GET" []) {[ "handle" := "shoes" ]}
             ∅ "shoes" "shoes" [("collection", VNull)]);
      [reflexivity|discriminate|reflexivity|discriminate|reflexivity
      |reflexivity].
  - apply (resource_not_found (H := sample_platform)
             (sample_context (Resolved (VObj [])))
             ProductRoute (sample_request "GET" []) {[ "handle" := "boot" ]}
             ∅ "boot" "boot" []);
      [reflexivity|discriminate|reflexivity|discriminate|reflexivity
      |reflexivity].
  - apply (resource_not_found (H := sample_platform)
             (sample_context (Resolved (VObj [("blog", VNull)])))
             BlogRoute (sample_request "GET" []) {[ "blogHandle" := "news" ]}
             ∅ "news" "news" [("blog", VNull)]);
      [reflexivity|discriminate|reflexivity|discriminate|reflexivity
      |reflexivity].
  - apply (resource_not_found (H := sample_platform)
             (sample_context (Resolved (VObj [("order", VNull)])))
             OrderRoute (sample_request "GET" []) {[ "id" := "Z2lkOi8v" ]}
             sample_session "Z2lkOi8v" "Z2lkOi8v" [("order", VNull)]);
      [reflexivity|discriminate|reflexivity|reflexivity|reflexivity
      |reflexivity].
Defined.

(** ** Login *)

Section Login.

Variable ctx : context.

(** C2. A POST to the login route whose form lacks the email or the
    password, or holds an empty one, is answered with a JSON error of
    status 400 carrying the message; no call goes out, the session is as
    it was and the response has no Set-Cookie header. *)
Theorem login_rejects_blank_input (req : request) (s : gmap string value) :
  method req = "POST" ->
  blank "email" (formData req) \/ blank "password" (formData req) ->
  exists (resp : response) (w : world),
    login_action ctx req (fresh s) = (Normal resp, w)
    /\ status resp = 400
    /\ body_of resp
       = Json (VObj [("error",
                      VStr "Please provide both an email and a password.")])
    /\ has_header "Set-Cookie" resp = false
    /\ sent w = []
    /\ session w = s.
Proof.
  intros Hpost Hblank. unfold login_action.
  rewrite Hpost. simpl.
  rewrite invalid_inputs
    by (destruct Hblank as [Hb|Hb]; [left|right]; by apply form_text_blank).
  simpl. by eexists _, (fresh s).
Qed.

(** C6. A POST to the login route whose mutation was answered with a
    customer access token holding a non-empty accessToken stores the
    token in the session under customerAccessToken, and answers with a
    redirect to /account whose Set-Cookie header is the commit of that
    session. *)
Theorem login_success (req : request) (s : gmap string value)
    (options data : value) :
  method req = "POST" ->
  (StorefrontMutate LOGIN_MUTATION, options)
    ∈ awaited (snd (login_action ctx req (fresh s))) ->
  storefront_reply ctx (StorefrontMutate LOGIN_MUTATION) options
    = Resolved data ->
  truthy (opt_prop (login_token data) "accessToken") = true ->
  exists (resp : response) (w : world),
    login_action ctx req (fresh s) = (Normal resp, w)
    /\ session w = <["customerAccessToken" := login_token data]> s
    /\ status resp = 302
    /\ assoc "Location" (headers resp) = Some "/account"
    /\ assoc "Set-Cookie" (headers resp)
       = Some (commitSession ctx
                 (<["customerAccessToken" := login_token data]> s)).
Proof.
  intros Hpost Hin Hreply Htoken.
  unfold login_action in *. rewrite Hpost in *.
  run_handler. split_run Hin.
  all: unfold awaited in Hin; simpl in Hin; try (by inversion Hin).
  all: apply list_elem_of_singleton in Hin; simplify_eq.
  all: rewrite Hreply in *; simplify_eq.
  all: unfold login_token in *; opt_props; simpl in *.
  all: try discriminate.
  all: try (rewrite Htoken in *; discriminate).
  all: eexists _, _; repeat split.
Qed.

End Login.

Lemma login_rejects_blank_input_witness :
  exists (resp : response) (w : world),
    login_action (sample_context (Resolved VNull))
      (sample_request "POST" [("email", FString "ada@example.com")])
      (fresh ∅)
    = (Normal resp, w)
    /\ status resp = 400
    /\ body_of resp
       = Json (VObj [("error",
                      VStr "Please provide both an email and a password.")])
    /\ has_header "Set-Cookie" resp = false
    /\ sent w = []
    /\ session w = ∅.
Proof.
  apply (login_rejects_blank_input (sample_context (Resolved VNull))
           (sample_request "POST" [("email", FString "ada@example.com")]) ∅).
  - reflexivity.
  - right. left. reflexivity.
Defined.

Lemma login_success_witness :
  exists (resp : response) (w : world),
    login_action (sample_context sample_login_answer)
      (sample_request "POST" sample_login_form) (fresh ∅)
    = (Normal resp, w)
    /\ session w = <["customerAccessToken" := sample_token "2030"]> ∅
    /\ status resp = 302
    /\ assoc "Location" (headers resp) = Some "/account"
    /\ assoc "Set-Cookie" (headers resp)
       = Some (commitSession (sample_context sample_login_answer)
                 (<["customerAccessToken" := sample_token "2030"]> ∅)).
Proof.
  change (sample_token "2030")
    with (login_token
            (VObj [("customerAccessTokenCreate",
                    VObj [("customerUserErrors", VArr []);
                          ("customerAccessToken", sample_token "2030")])])).
  apply (login_success (sample_context sample_login_answer)
           (sample_request "POST" sample_login_form) ∅
           (login_options "ada@example.com" "hunter22")).
  - reflexivity.
  - vm_compute. apply list_elem_of_here.
  - reflexivity.
  - reflexivity.
Defined.

(** ** Account actions without a session *)

Section Unauthorized.

Context `{Platform}.
Variable ctx : context.


End Unauthorized.



(** ** Password reset *)

(** C3. A POST to the password reset route that carries a password and no
    passwordConfirm field is not turned away: the customerReset mutation
    goes out with that password, and when the API accepts it the action
    logs the customer in and redirects with status 302. *)
Theorem reset_action_without_confirmation :
  let run :=
    reset_action (sample_context sample_reset_answer)
      (sample_request "POST" [("password", FString "hunter22")])
      sample_reset_params (fresh ∅) in
  sent (snd run)
    = [(StorefrontMutate CUSTOMER_RESET_MUTATION,
        reset_options "42" "hunter22" "r3s3t")]
  /\ (exists resp : response,
        fst run = Normal resp
        /\ status resp = 302
        /\ assoc "Location" (headers resp) = Some "/account")
  /\ session (snd run) !! "customerAccessToken" = Some (sample_token "2030").
Proof. vm_compute. repeat split. eexists. repeat split. Qed.

(** Whatever the API answers, a reset form with an empty or absent password
    or confirmation sends the mutation. *)
Lemma reset_action_sends_on_blank_input (ctx : context) (req : request)
    (params : gmap string string) (s : gmap string value)
    (a b : ascii) (id token : string) :
  method req = "POST" ->
  params !! "id" = Some (String a id) ->
  params !! "resetToken" = Some (String b token) ->
  blank "password" (formData req) \/ blank "passwordConfirm" (formData req) ->
  (StorefrontMutate CUSTOMER_RESET_MUTATION,
   reset_options (String a id) (form_text "password" (formData req))
     (String b token))
    ∈ sent (snd (reset_action ctx req params (fresh s))).
Proof.
  intros Hpost Hid Htoken Hblank.
  unfold reset_action, param. rewrite Hpost, Hid, Htoken. simpl.
  rewrite invalid_inputs
    by (destruct Hblank as [Hb|Hb]; [left|right]; by apply form_text_blank).
  simpl. run_handler.
  repeat match goal with
         | |- context [match ?x with _ => _ end] =>
             lazymatch x with
             | context [match _ with _ => _ end] => fail
             | _ => destruct x eqn:?; simpl in *
             end
         end.
  all: unfold bad_request, ret, sent; simpl; apply list_elem_of_here.
Qed.

(** ** Deferred data *)

Section Deferred.

Context `{Platform}.
Variable ctx : context.

(** C7. The root loader waits for the header query only: the cart and the
    footer query go out and are handed to [defer] as promises, next to
    the header's answer. The product loader waits for the product query
    only, and what it returns holds the variants query as a promise. On a
    request that names a product it does wait for the product query,
    whatever the answer; once the answer is there the variants query goes
    out and is never waited for; and for a product with an id and a
    variant to select the loader returns, the variants promise in its
    data. *)
Theorem deferred_queries_not_awaited (req : request)
    (params : gmap string string) (s : gmap string value) :
  (let (out, w) := root_loader ctx (fresh s) in
   awaited w = [(StorefrontQuery HEADER_QUERY, header_query_options ctx)]
   /\ sent w = [(CartGet, VUndefined);
                (StorefrontQuery FOOTER_QUERY, footer_query_options ctx);
                (StorefrontQuery HEADER_QUERY, header_query_options ctx)]
   /\ match storefront_reply ctx (StorefrontQuery HEADER_QUERY)
              (header_query_options ctx) with
      | Resolved header =>
          exists (resp : response) (data : list (string * value)),
            out = Normal resp
            /\ body_of resp = Deferred (VObj data)
            /\ assoc "cart" data = Some (VPromise CartGet VUndefined)
            /\ assoc "footer" data
               = Some (VPromise (StorefrontQuery FOOTER_QUERY)
                         (footer_query_options ctx))
            /\ assoc "header" data = Some header
      | Rejected t => out = Abrupt t
      end)
  /\
  (let (out, w) := product_loader ctx req params (fresh s) in
   (forall c : callee * value,
       c ∈ awaited w -> fst c = StorefrontQuery PRODUCT_QUERY)
   /\ forall resp : response,
       out = Normal resp ->
       exists (handle : string) (product : value),
         params !! "handle" = Some handle
         /\ awaited w
            = [(StorefrontQuery PRODUCT_QUERY,
                product_query_options req handle)]
         /\ (StorefrontQuery VARIANTS_QUERY, variants_query_options handle)
              ∈ sent w
         /\ body_of resp
            = Deferred
                (VObj [("product", product);
                       ("variants",
                        VPromise (StorefrontQuery VARIANTS_QUERY)
                          (variants_query_options handle))]))
  /\
  (forall handle : string,
      params !! "handle" = Some handle ->
      handle <> "" ->
      let (out, w) := product_loader ctx req params (fresh s) in
      awaited w
      = [(StorefrontQuery PRODUCT_QUERY, product_query_options req handle)]
      /\ forall data product : value,
          storefront_reply ctx (StorefrontQuery PRODUCT_QUERY)
            (product_query_options req handle)
          = Resolved data ->
          get_prop data "product" = Normal product ->
          sent w
          = [(StorefrontQuery PRODUCT_QUERY, product_query_options req handle);
             (StorefrontQuery VARIANTS_QUERY, variants_query_options handle)]
          /\ forall firstVariant options found : value,
              truthy (opt_prop product "id") = true ->
              first_variant product = Normal firstVariant ->
              get_prop firstVariant "selectedOptions" = Normal options ->
              array_find is_default_title options = Normal found ->
              truthy found = true
              \/ truthy (opt_prop product "selectedVariant") = true ->
              exists (resp : response) (product' : value),
                out = Normal resp
                /\ body_of resp
                   = Deferred
                       (VObj [("product", product');
                              ("variants",
                               VPromise (StorefrontQuery VARIANTS_QUERY)
                                 (variants_query_options handle))])).
Proof.
  split; [|split].
  - unfold root_loader, validateCustomerAccessToken.
    run_handler.
    repeat match goal with
           | |- context [match ?x with _ => _ end] =>
               lazymatch x with
               | context [match _ with _ => _ end] => fail
               | _ => destruct x eqn:?; simpl in *
               end
           end.
    all: simplify_eq.
    all: repeat split; eauto 10.
  - unfold product_loader, redirectToFirstVariant.
    run_handler.
    repeat match goal with
           | |- context [match ?x with _ => _ end] =>
               lazymatch x with
               | context [match _ with _ => _ end] => fail
               | _ => destruct x eqn:?; simpl in *
               end
           end.
    all: split; [intros c Hc; unfold awaited in Hc; simpl in Hc;
                 try (by inversion Hc);
                 apply list_elem_of_singleton in Hc; by subst |].
    all: intros resp Hresp; simplify_eq.
    all: eexists _, _; repeat split; simpl; eauto.
    all: unfold sent; simpl; set_solver.
  - intros handle Hhandle Hne.
    unfold product_loader, redirectToFirstVariant. rewrite Hhandle.
    destruct handle as [|a handle]; [done|].
    run_handler.
    repeat match goal with
           | |- context [match ?x with _ => _ end] =>
               lazymatch x with
               | context [match _ with _ => _ end] => fail
               | _ => destruct x eqn:?; simpl in *
               end
           end.
    all: split; [reflexivity|].
    all: intros data' product' Hreply Hproduct; simplify_eq.
    all: try congruence.
    all: assert (a0 = product') as -> by congruence.
    all: split; [reflexivity|].
    all: intros firstVariant options' found Hid Hfirst Hoptions Hfound Hselect.
    all: try (by eexists _, _).
    all: try (rewrite Hid in *; discriminate).
    all: try congruence.
    all: repeat match goal with
                | E : ?x = Normal ?u, E' : ?x = Normal ?v |- _ =>
                    assert (u = v) as -> by congruence; clear E'
                end.
    all: try congruence.
    all: opt_props.
    all: try (destruct Hselect as [Hselect|Hselect];
              rewrite Hselect in *; discriminate).
    all: destruct product'; try discriminate.
Qed.

End Deferred.

Lemma deferred_queries_not_awaited_witness :
  let ctx := sample_context (Resolved (VObj [("product", sample_product)])) in
  let req := sample_request "GET" [] in
  let (out, w) :=
    product_loader (H := sample_platform) ctx req {[ "handle" := "boot" ]}
      (fresh ∅) in
  awaited w
  = [(StorefrontQuery PRODUCT_QUERY,
      product_query_options (H := sample_platform) req "boot")]
  /\ sent w
     = [(StorefrontQuery PRODUCT_QUERY,
         product_query_options (H := sample_platform) req "boot");
        (StorefrontQuery VARIANTS_QUERY, variants_query_options "boot")]
  /\ exists (resp : response) (product' : value),
      out = Normal resp
      /\ body_of resp
         = Deferred
             (VObj [("product", product');
                    ("variants",
                     VPromise (StorefrontQuery VARIANTS_QUERY)
                       (variants_query_options "boot"))]).
Proof.
  intros ctx req.
  destruct (deferred_queries_not_awaited (H := sample_platform) ctx req
              {[ "handle" := "boot" ]} ∅) as (_ & _ & Hproduct).
  specialize (Hproduct "boot" eq_refl ltac:(discriminate)).
  destruct (product_loader (H := sample_platform) ctx req
              {[ "handle" := "boot" ]} (fresh ∅)) as [out w].
  destruct Hproduct as [Hawaited Hresolved].
  destruct (Hresolved (VObj [("product", sample_product)]) sample_product
              eq_refl eq_refl) as [Hsent Hreturns].
  split; [exact Hawaited|]. split; [exact Hsent|].
  apply (Hreturns
           (VObj [("selectedOptions",
                   VArr [VObj [("name", VStr "Title");
                               ("value", VStr "Default Title")]])])
           (VArr [VObj [("name", VStr "Title");
                        ("value", VStr "Default Title")]])
           (VObj [("name", VStr "Title"); ("value", VStr "Default Title")])
           eq_refl eq_refl eq_refl eq_refl (or_introl eq_refl)).
Defined.

(** ** The access-token validator *)

Section Validator.

Context `{Platform}.
Variable ctx : context.

(** C8. The validator reports the customer as logged in exactly when the
    token has a non-empty accessToken and an expiresAt that is not
    earlier than now. On a token that is there and expired it removes
    customerAccessToken from the session and returns a Set-Cookie header
    with the commit of the session after the removal, logged out; in
    every other case the session is untouched and no header is sent. *)
Theorem validateCustomerAccessToken_spec (token : value)
    (s : gmap string value) :
  exists (isLoggedIn : bool) (headers : list (string * string)) (w : world),
    validateCustomerAccessToken ctx token (fresh s)
      = (Normal (isLoggedIn, headers), w)
    /\ (isLoggedIn = true
        <-> token_present token /\ ~ token_expired ctx token)
    /\ (token_present token -> token_expired ctx token ->
        isLoggedIn = false
        /\ session w = delete "customerAccessToken" s
        /\ headers
           = [("Set-Cookie",
               commitSession ctx (delete "customerAccessToken" s))])
    /\ (~ (token_present token /\ token_expired ctx token) ->
        session w = s /\ headers = []).
Proof.
  unfold validateCustomerAccessToken, token_present, token_expired.
  destruct (truthy (opt_prop token "accessToken")) eqn:Ha; simpl.
  2: { eexists _, _, _. split; [reflexivity|]. simpl.
       intuition congruence. }
  destruct (truthy (opt_prop token "expiresAt")) eqn:He; simpl.
  2: { eexists _, _, _. split; [reflexivity|]. simpl.
       intuition congruence. }
  destruct (Date_getTime (opt_prop token "expiresAt")) as [t|] eqn:Ht.
  2: { eexists _, _, _. split; [reflexivity|]. simpl.
       repeat split; try done.
       all: intros; try (intros (t' & Ht' & _)); try discriminate.
       all: match goal with
            | E : exists _, None = Some _ /\ _ |- _ =>
                destruct E as (? & ? & _); discriminate
            end. }
  destruct (Z.ltb_spec t (Date_now ctx)) as [Hlt|Hge].
  - run_handler. eexists _, _, _. split; [reflexivity|]. simpl.
    assert (exists t', Some t = Some t' /\ t' < Date_now ctx) by eauto.
    intuition congruence.
  - eexists _, _, _. split; [reflexivity|]. simpl.
    assert (~ exists t', Some t = Some t' /\ t' < Date_now ctx).
    { intros (t' & Ht' & Hlt). simplify_eq. lia. }
    intuition congruence.
Qed.

End Validator.

(** ** Facts on URLSearchParams *)

Module URLSearchParamsFacts.

Import URLSearchParams.

Lemma getAll_cons (k k' v' : string) (params : t) :
  getAll k ((k', v') :: params)
  = if bool_decide (k' = k) then v' :: getAll k params else getAll k params.
Proof. unfold getAll. simpl. by destruct (bool_decide (k' = k)). Qed.

Lemma delete_cons (k k' v' : string) (params : t) :
  delete k ((k', v') :: params)
  = if bool_decide (k' = k) then delete k params
    else (k', v') :: delete k params.
Proof. unfold delete. simpl. by destruct (bool_decide (k' = k)). Qed.

Lemma getAll_app (k : string) (p q : t) :
  getAll k (p ++ q) = getAll k p ++ getAll k q.
Proof. unfold getAll. by rewrite List.filter_app, fmap_app. Qed.

Lemma delete_app (k : string) (p q : t) :
  delete k (p ++ q) = delete k p ++ delete k q.
Proof. unfold delete. by rewrite List.filter_app. Qed.

Lemma getAll_snoc (k k' v' : string) (params : t) :
  getAll k (append k' v' params)
  = getAll k params ++ (if bool_decide (k' = k) then [v'] else []).
Proof.
  unfold append. rewrite getAll_app. f_equal.
  rewrite getAll_cons. by destruct (bool_decide (k' = k)).
Qed.

(** The entries appended under one key: reading the key gives them back,
    deleting the key removes them all. *)
Lemma getAll_own_key (k : string) (vs : list string) :
  getAll k ((fun v => (k, v)) <$> vs) = vs.
Proof.
  induction vs as [|v vs IH]; [done|].
  rewrite fmap_cons, getAll_cons, bool_decide_eq_true_2 by done.
  by rewrite IH.
Qed.

Lemma delete_own_key (k : string) (vs : list string) :
  delete k ((fun v => (k, v)) <$> vs) = [].
Proof.
  induction vs as [|v vs IH]; [done|].
  by rewrite fmap_cons, delete_cons, bool_decide_eq_true_2.
Qed.

Lemma append_all (k : string) (vs : list string) (params : t) :
  fold_left (fun clone v => append k v clone) vs params
  = params ++ ((fun v => (k, v)) <$> vs).
Proof.
  revert params.
  induction vs as [|v vs IH]; intros params; simpl.
  - by rewrite app_nil_r.
  - rewrite IH. unfold append. by rewrite <- app_assoc.
Qed.

Lemma delete_absent (k : string) (params : t) :
  getAll k params = [] -> delete k params = params.
Proof.
  induction params as [|[k' v'] rest IH]; [done|].
  rewrite getAll_cons, delete_cons.
  destruct (bool_decide (k' = k)); [done|]. intros Hrest. by rewrite IH.
Qed.

Lemma getAll_delete_other (k k' : string) (params : t) :
  k <> k' -> getAll k (delete k' params) = getAll k params.
Proof.
  intros Hne. induction params as [|[k0 v0] rest IH]; [done|].
  rewrite delete_cons, getAll_cons.
  destruct (bool_decide (k0 = k')) eqn:E0.
  - apply bool_decide_eq_true in E0. subst k0.
    by rewrite bool_decide_eq_false_2.
  - rewrite getAll_cons. by rewrite IH.
Qed.

Lemma getAll_delete_same (k : string) (params : t) :
  getAll k (delete k params) = [].
Proof.
  induction params as [|[k0 v0] rest IH]; [done|].
  rewrite delete_cons.
  destruct (bool_decide (k0 = k)) eqn:E0; [done|].
  by rewrite getAll_cons, E0.
Qed.

Lemma delete_delete (k : string) (params : t) :
  delete k (delete k params) = delete k params.
Proof. apply delete_absent, getAll_delete_same. Qed.

Lemma getAll_set_same (k v : string) (params : t) :
  getAll k (set k v params) = [v].
Proof.
  induction params as [|[k0 v0] rest IH]; simpl.
  - by rewrite getAll_cons, bool_decide_eq_true_2.
  - destruct (decide (k0 = k)) as [->|Hne].
    + by rewrite getAll_cons, bool_decide_eq_true_2, getAll_delete_same.
    + by rewrite getAll_cons, bool_decide_eq_false_2.
Qed.

Lemma getAll_set_other (k k' v' : string) (params : t) :
  k <> k' -> getAll k (set k' v' params) = getAll k params.
Proof.
  intros Hne. induction params as [|[k0 v0] rest IH]; simpl.
  - by rewrite getAll_cons, bool_decide_eq_false_2.
  - destruct (decide (k0 = k')) as [->|Hne0].
    + rewrite !getAll_cons, bool_decide_eq_false_2 by done.
      by apply getAll_delete_other.
    + rewrite !getAll_cons. by rewrite IH.
Qed.

(** Setting a key to the one value it has changes nothing. *)
Lemma set_settled (k v : string) (params : t) :
  getAll k params = [v] -> set k v params = params.
Proof.
  induction params as [|[k0 v0] rest IH]; [done|]. simpl.
  rewrite getAll_cons. destruct (decide (k0 = k)) as [->|Hne].
  - rewrite bool_decide_eq_true_2 by done. intros [= -> Hrest].
    by rewrite delete_absent.
  - rewrite bool_decide_eq_false_2 by done. intros Hrest. by rewrite IH.
Qed.

End URLSearchParamsFacts.

(** ** Removing an applied filter *)

Section AppliedFilterLink.

Context `{Platform}.

Import URLSearchParamsFacts.

(** C9. The link that removes an applied filter is the pathname, a
    question mark and the serialised parameters, and these keep every
    entry under another key, unchanged and in order. Under a key other
    than variantOption all entries of the key go; under variantOption the
    entries that contain the filter's value go and the others are
    appended again, after the entries of the other keys. *)
Theorem getAppliedFilterLink_frame (filter : AppliedFilter)
    (params : URLSearchParams.t) (location_pathname : string) :
  let k := urlParam_key filter in
  let kept := applied_filter_params filter params in
  getAppliedFilterLink filter params location_pathname
    = location_pathname +:+ "?" +:+ urlencoded kept
  /\ URLSearchParams.delete k kept = URLSearchParams.delete k params
  /\ URLSearchParams.getAll k kept
     = (if decide (k = "variantOption")
        then List.filter
               (fun v => negb (Str.includes v (urlParam_value filter)))
               (URLSearchParams.getAll k params)
        else [])
  /\ kept
     = URLSearchParams.delete k params
         ++ ((fun v => (k, v)) <$> URLSearchParams.getAll k kept).
Proof.
  intros k kept. subst kept. unfold getAppliedFilterLink.
  split; [reflexivity|].
  unfold applied_filter_params. fold k.
  destruct (decide (k = "variantOption")) as [Hk|Hk].
  - rewrite append_all. rewrite <- Hk.
    rewrite delete_app, delete_delete, delete_own_key, app_nil_r.
    rewrite getAll_app, getAll_delete_same, getAll_own_key. simpl.
    repeat split; reflexivity.
  - rewrite delete_delete, getAll_delete_same. simpl.
    rewrite app_nil_r. repeat split; reflexivity.
Qed.

End AppliedFilterLink.

(** ** Encoding a filter input twice *)

Module ParamWrites.

Import URLSearchParams URLSearchParamsFacts.

(** A settled write changes nothing. *)
Lemma write_settled (o : param_write) (params : t) :
  settled o params -> write o params = params.
Proof.
  destruct o as [k v|v]; simpl.
  - apply set_settled.
  - intros Hin. unfold Str.mem. by rewrite bool_decide_eq_true_2.
Qed.

(** A write is settled once it is made. *)
Lemma settled_write (o : param_write) (params : t) :
  settled o (write o params).
Proof.
  destruct o as [k v|v]; simpl.
  - apply getAll_set_same.
  - unfold Str.mem. case_bool_decide as Hin; [done|].
    rewrite getAll_snoc, bool_decide_eq_true_2 by done.
    apply elem_of_app. right. apply list_elem_of_here.
Qed.

(** An independent write keeps a settled one settled. *)
Lemma settled_independent (o o' : param_write) (params : t) :
  independent o o' -> settled o params -> settled o (write o' params).
Proof.
  destruct o as [k v|v], o' as [k' v'|v']; simpl; intros Hind Hs.
  - by rewrite getAll_set_other.
  - unfold Str.mem. case_bool_decide; [done|].
    rewrite getAll_snoc, bool_decide_eq_false_2 by done.
    by rewrite app_nil_r.
  - by rewrite getAll_set_other.
  - unfold Str.mem. case_bool_decide; [done|].
    rewrite getAll_snoc. apply elem_of_app. by left.
Qed.

Lemma settled_writes (o : param_write) (ws : list param_write) (params : t) :
  Forall (independent o) ws -> settled o params ->
  settled o (writes ws params).
Proof.
  revert params. induction ws as [|o' ws IH]; intros params Hall Hs; [done|].
  inversion Hall; subst. simpl. apply IH; [done|].
  by apply settled_independent.
Qed.

(** After independent writes each of them is settled. *)
Lemma writes_all_settled (ws : list param_write) (params : t) :
  independent_writes ws ->
  Forall (fun o => settled o (writes ws params)) ws.
Proof.
  revert params. induction ws as [|o ws IH]; intros params Hind; [done|].
  destruct Hind as [Hhead Htail]. simpl. constructor.
  - apply settled_writes; [done|]. apply settled_write.
  - by apply IH.
Qed.

Lemma writes_settled (ws : list param_write) (params : t) :
  Forall (fun o => settled o params) ws -> writes ws params = params.
Proof.
  induction ws as [|o ws IH]; intros Hall; [done|].
  inversion Hall; subst. simpl. rewrite write_settled by done. by apply IH.
Qed.

(** Independent writes made twice are the writes made once. *)
Lemma writes_idempotent (ws : list param_write) (params : t) :
  independent_writes ws ->
  writes ws (writes ws params) = writes ws params.
Proof.
  intros Hind. apply writes_settled. by apply writes_all_settled.
Qed.

End ParamWrites.

Section FilterInput.

Context `{Platform}.

Lemma list_filter_entry_write (entry : string * value) (o : param_write)
    (params : URLSearchParams.t) :
  entry_write entry = Some o ->
  list_filter_entry entry params = (Normal tt, write o params).
Proof.
  destruct entry as [key v]. unfold entry_write, list_filter_entry. simpl.
  destruct v; intros [= <-]; try reflexivity.
  all: unfold bind, gets, params_append, modify, ret; simpl.
  all: by destruct (Str.mem _ _).
Qed.

Lemma for_of_writes (entries : list (string * value))
    (ws : list param_write) (params : URLSearchParams.t) :
  Forall2 (fun entry o => entry_write entry = Some o) entries ws ->
  for_of entries list_filter_entry params = (Normal tt, writes ws params).
Proof.
  intros Hall. revert params.
  induction Hall as [|entry o entries ws Ho _ IH]; intros params; [done|].
  simpl. unfold bind. rewrite (list_filter_entry_write _ _ _ Ho).
  apply IH.
Qed.

(** A LIST input of variant options: every property adds a variant. *)
Lemma variant_option_writes (props : list (string * value)) :
  Forall (fun kv => exists fields, snd kv = VObj fields) props ->
  exists ws,
    Forall2 (fun entry o => entry_write entry = Some o) props ws
    /\ Forall (fun o => exists v, o = AddVariant v) ws.
Proof.
  induction 1 as [|[key v] props [fields Hv] _ (ws & Hws & Hadd)].
  - exists []. by split.
  - simpl in Hv. subst v. eexists (_ :: ws). split.
    + constructor; [reflexivity | done].
    + constructor; eauto.
Qed.

Lemma add_variants_independent (ws : list param_write) :
  Forall (fun o => exists v, o = AddVariant v) ws -> independent_writes ws.
Proof.
  induction 1 as [|o ws [v ->] Hws IH]; simpl; [done|].
  split; [|done].
  eapply Forall_impl; [exact Hws|]. by intros o' [v' ->].
Qed.

(** A LIST input of strings and booleans: every property overwrites its
    own key. *)
Lemma scalar_writes (props : list (string * value)) :
  Forall (fun kv => is_scalar (snd kv)) props ->
  exists ws,
    Forall2 (fun entry o => entry_write entry = Some o) props ws
    /\ Forall2 (fun entry o => exists v, o = Overwrite (fst entry) v) props ws.
Proof.
  induction 1 as [|[key v] props Hv _ (ws & Hws & Hover)].
  - exists []. by split.
  - destruct v; try done.
    all: eexists (_ :: ws); split;
      [constructor; [reflexivity | done] | constructor; eauto].
Qed.

Lemma overwrites_independent (props : list (string * value))
    (ws : list param_write) :
  NoDup (fst <$> props) ->
  Forall2 (fun entry o => exists v, o = Overwrite (fst entry) v) props ws ->
  independent_writes ws.
Proof.
  intros Hnodup Hall.
  induction Hall as [|entry o props ws [v ->] Hrest IH]; simpl; [done|].
  rewrite fmap_cons in Hnodup. apply NoDup_cons in Hnodup as [Hfresh Hnodup].
  split; [|by apply IH].
  clear IH Hnodup. induction Hrest as [|e o' props ws [v' ->] _ IH'];
    [done|].
  rewrite fmap_cons in Hfresh. apply not_elem_of_cons in Hfresh as [Hne ?].
  constructor; [exact Hne | by apply IH'].
Qed.

Lemma price_writes_independent (min max : value) :
  independent_writes (price_writes min max).
Proof.
  unfold price_writes.
  destruct (truthy min), (truthy max); simpl; repeat split; try done.
  constructor; [discriminate | done].
Qed.

(** What the encoder does on the inputs it is given, as writes. *)
Lemma filterInputToParams_writes (type : FilterType) (rawInput input : value)
    (params : URLSearchParams.t) :
  input_of rawInput = Some input ->
  filter_input type input ->
  exists ws,
    independent_writes ws
    /\ forall p, filterInputToParams type rawInput p = (Normal tt, writes ws p).
Proof.
  intros Hinput Hfilter.
  assert (forall (k : value -> M URLSearchParams.t unit) p,
             bind match rawInput with
                  | VStr s =>
                      match JSON_parse s with
                      | Some v => ret v
                      | None => throw (ThrownError "SyntaxError" "Unexpected token")
                      end
                  | _ => ret rawInput
                  end k p
             = k input p) as Hparse.
  { intros k p. unfold input_of in Hinput.
    destruct rawInput; simplify_eq; try reflexivity.
    by rewrite Hinput. }
  destruct Hfilter as [props Hprops|props Hnodup Hprops|input price Hprice Hnn].
  - destruct (variant_option_writes props Hprops) as (ws & Hws & Hadd).
    exists ws. split; [by apply add_variants_independent|].
    intros p. unfold filterInputToParams. rewrite Hparse. simpl.
    unfold bind, lift. by apply for_of_writes.
  - destruct (scalar_writes props Hprops) as (ws & Hws & Hover).
    exists ws. split; [by eapply overwrites_independent|].
    intros p. unfold filterInputToParams. rewrite Hparse. simpl.
    unfold bind, lift. by apply for_of_writes.
  - exists (price_writes (opt_prop price "min") (opt_prop price "max")).
    split; [apply price_writes_independent|].
    intros p. unfold filterInputToParams. rewrite Hparse.
    unfold bind, lift. rewrite Hprice.
    rewrite !(get_prop_defined price) by done.
    unfold price_writes, params_set, modify, ret.
    by destruct (truthy (opt_prop price "min")),
         (truthy (opt_prop price "max")).
Qed.

(** C10. On a LIST input of variant options, encoding the input into
    search parameters that already hold its encoding changes nothing:
    each variant is appended only when absent. The same holds for a LIST
    input of strings and booleans and for a PRICE_RANGE input, whose keys
    are overwritten. *)
Theorem filterInputToParams_idempotent (type : FilterType)
    (rawInput input : value) (params : URLSearchParams.t) :
  input_of rawInput = Some input ->
  filter_input type input ->
  exists once : URLSearchParams.t,
    filterInputToParams type rawInput params = (Normal tt, once)
    /\ filterInputToParams type rawInput once = (Normal tt, once).
Proof.
  intros Hinput Hfilter.
  destruct (filterInputToParams_writes type rawInput input params
              Hinput Hfilter) as (ws & Hind & Hrun).
  exists (writes ws params). split; [apply Hrun|].
  rewrite Hrun. by rewrite ParamWrites.writes_idempotent.
Qed.

End FilterInput.

Lemma filterInputToParams_idempotent_witness :
  exists once : URLSearchParams.t,
    filterInputToParams (H := sample_platform) LIST sample_variant_input
      [("sort", "newest")]
    = (Normal tt, once)
    /\ filterInputToParams (H := sample_platform) LIST sample_variant_input once
       = (Normal tt, once).
Proof.
  apply (filterInputToParams_idempotent (H := sample_platform) LIST
           sample_variant_input sample_variant_input [("sort", "newest")]).
  - reflexivity.
  - apply variant_option_input. repeat constructor. simpl. eauto.
Defined.

(** ** Sample runs *)

Example sample_cookie :
  commitSession (sample_context sample_login_answer)
    (<["customerAccessToken" := sample_token "2030"]> ∅)
  = "session=tok".
Proof. vm_compute. reflexivity. Qed.

Example encode_variant_once :
  filterInputToParams (H := sample_platform) LIST sample_variant_input
    [("sort", "newest")]
  = (Normal tt, [("sort", "newest"); ("variantOption", "Color:Red")]).
Proof. vm_compute. reflexivity. Qed.

Example encode_variant_twice :
  filterInputToParams (H := sample_platform) LIST sample_variant_input
    [("sort", "newest"); ("variantOption", "Color:Red")]
  = (Normal tt, [("sort", "newest"); ("variantOption", "Color:Red")]).
Proof. vm_compute. reflexivity. Qed.

Example remove_variant_filter :
  getAppliedFilterLink (H := sample_platform)
    {| label := "Red"; urlParam_key := "variantOption";
       urlParam_value := "Color:Red" |}
    [("variantOption", "Color:Red"); ("sort", "newest");
     ("variantOption", "Size:M")]
    "/collections/shoes"
  = "/collections/shoes?sort=newest&variantOption=Size:M".
Proof. vm_compute. reflexivity. Qed.

Example remove_vendor_filter :
  getAppliedFilterLink (H := sample_platform)
    {| label := "Acme"; urlParam_key := "productVendor";
       urlParam_value := "Acme" |}
    [("productVendor", "Acme"); ("sort", "newest")]
    "/collections/shoes"
  = "/collections/shoes?sort=newest".
Proof. vm_compute. reflexivity. Qed.

Example validate_live_token :
  validateCustomerAccessToken (H := sample_platform)
    (sample_context (Resolved VNull)) (sample_token "2030")
    (fresh {[ "customerAccessToken" := sample_token "2030" ]})
  = (Normal (true, []),
     fresh {[ "customerAccessToken" := sample_token "2030" ]}).
Proof. reflexivity. Qed.

Example validate_expired_token :
  fst (validateCustomerAccessToken (H := sample_platform)
         (sample_context (Resolved VNull)) (sample_token "2020")
         (fresh {[ "customerAccessToken" := sample_token "2020" ]}))
  = Normal (false, [("Set-Cookie", "session=undefined")]).
Proof. vm_compute. reflexivity. Qed.

Example product_not_found :
  fst (product_loader (H := sample_platform)
         (sample_context (Resolved (VObj [("product", VNull)])))
         (sample_request "GET" []) {[ "handle" := "boot" ]} (fresh ∅))
  = Abrupt (ThrownResponse (Response None 404)).
Proof. vm_compute. reflexivity. Qed.

Example product_deferred :
  let product :=
    VObj [("id", VStr "gid://shopify/Product/1");
          ("handle", VStr "boot");
          ("variants",
           VObj [("nodes",
                  VArr [VObj [("selectedOptions",
                               VArr [VObj [("name", VStr "Title");
                                           ("value", VStr "Default Title")]])]])])] in
  exists resp : response,
    fst (product_loader (H := sample_platform)
           (sample_context (Resolved (VObj [("product", product)])))
           (sample_request "GET" []) {[ "handle" := "boot" ]} (fresh ∅))
    = Normal resp
    /\ status resp = 200
    /\ opt_prop (match body_of resp with Deferred d => d | _ => VNull end)
         "variants"
       = VPromise (StorefrontQuery VARIANTS_QUERY)
           (variants_query_options "boot").
Proof. vm_compute. eexists. repeat split. Qed.

Example order_without_token_redirects :
  fst (order_loader (H := sample_platform) (sample_context (Resolved VNull))
         {[ "id" := "Z2lkOi8v" ]} (fresh ∅))
  = Normal (redirect "/account/login" None []).
Proof. vm_compute. reflexivity. Qed.

Example profile_requires_put :
  fst (profile_action (sample_context (Resolved VNull))
         (FormRequest (sample_request "POST" [])) (fresh ∅))
  = Normal method_not_allowed.
Proof. vm_compute. reflexivity. Qed.

Example blog_not_found :
  fst (blog_loader (H := sample_platform)
         (sample_context (Resolved (VObj [("blog", VNull)])))
         (sample_request "GET" []) {[ "blogHandle" := "news" ]} (fresh ∅))
  = Abrupt (ThrownResponse (Response (Some "Not found") 404)).
Proof. vm_compute. reflexivity. Qed.

Example order_not_found :
  fst (order_loader (H := sample_platform)
         (sample_context (Resolved (VObj [("order", VNull)])))
         {[ "id" := "Z2lkOi8v" ]}
         (fresh {[ "customerAccessToken" := sample_token "2030" ]}))
  = Abrupt (ThrownResponse (Response (Some "Order not found") 404)).
Proof. vm_compute. reflexivity. Qed.

Example login_with_wrong_password :
  fst (login_action
         (sample_context
            (Resolved
               (VObj [("customerAccessTokenCreate",
                       VObj [("customerUserErrors",
                              VArr [VObj [("message",
                                           VStr "Unidentified customer")]]);
                             ("customerAccessToken", VNull)])])))
         (sample_request "POST" sample_login_form) (fresh ∅))
  = Normal (json (VObj [("error", VStr "Unidentified customer")]) (Some 400) []).
Proof. vm_compute. reflexivity. Qed.

Example reset_with_mismatch :
  reset_action (sample_context sample_reset_answer)
    (sample_request "POST"
       [("password", FString "hunter22"); ("passwordConfirm", FString "hunter23")])
    sample_reset_params (fresh ∅)
  = (Normal (json (VObj [("error", VStr "Please provide matching passwords")])
               (Some 400) []),
     fresh ∅).
Proof. vm_compute. reflexivity. Qed.

(** Outside the inputs of [filter_input] a second pass can move entries: a
    string property named variantOption overwrites the variants that
    object properties add, and they come back behind the other keys. *)
Example mixed_input_moves_entries :
  let input :=
    VObj [("variantOption", VStr "x");
          ("a", VObj [("name", VStr "n"); ("value", VStr "s")]);
          ("k", VStr "1")] in
  let once := snd (filterInputToParams (H := sample_platform) LIST input []) in
  once = [("variantOption", "x"); ("variantOption", "n:s"); ("k", "1")]
  /\ snd (filterInputToParams (H := sample_platform) LIST input once)
     = [("variantOption", "x"); ("k", "1"); ("variantOption", "n:s")].
Proof. vm_compute. by split. Qed.

(** * Further properties *)

(** Case analysis on everything the goal branches on, innermost scrutinee
    first. *)
Ltac split_goal :=
  repeat match goal with
         | |- context [match ?x with _ => _ end] =>
             lazymatch x with
             | context [match _ with _ => _ end] => fail
             | _ => destruct x eqn:?; simpl in *
             end
         end.

Ltac run_site :=
  repeat (progress unfold logout_to_login, bad_request_site, bad_request, ask,
            on_base, storefront_query, storefront_mutate, cart_get, await,
            session_get, session_set, session_unset, session_commit, log,
            gets, modify, try_catch, lift, throw, ret, bind, visit, fresh
            in *);
  simpl in *.

(** ** Login and reset always answer *)

Section ActionsAnswer.

Variable ctx : context.



End ActionsAnswer.

(** ** The addresses action *)

Section AddressesAnswer.

Context `{Platform}.
Variable ctx : context.


(** X4. Whatever the addresses action sends is a mutation that carries the
    accessToken of the session's customer access token, and that token is
    there. *)
Theorem addresses_action_sends_token (req : request) (s : gmap string value)
    (c : callee) (options : value) :
  (c, options) ∈ sent (snd (addresses_action ctx req (fresh s))) ->
  (exists d : document, c = StorefrontMutate d)
  /\ truthy (default VUndefined (s !! "customerAccessToken")) = true
  /\ opt_prop (opt_prop options "variables") "customerAccessToken"
     = opt_prop (default VUndefined (s !! "customerAccessToken")) "accessToken".
Proof.
  intros Hin.
  unfold addresses_action in Hin.
  set (address := address_of_form (formData req)) in Hin. clearbody address.
  unfold address_create, address_update, address_delete,
    update_default_address, throw_user_errors, decode_component,
    address_bad_request in Hin.
  run_handler. split_run Hin.
  all: unfold sent in Hin; simpl in Hin.
  all: repeat (apply elem_of_cons in Hin as [Hin|Hin]; [simplify_eq|]).
  all: try (by apply elem_of_nil in Hin).
  all: opt_props; simpl.
  all: split; [by eexists|split]; [by apply negb_false_iff|done].
Qed.

End AddressesAnswer.

Lemma addresses_action_sends_token_witness :
  (exists d : document, StorefrontMutate DELETE_ADDRESS_MUTATION = StorefrontMutate d)
  /\ truthy
       (default VUndefined
          (({[ "customerAccessToken" := sample_token "2030" ]}
              : gmap string value) !! "customerAccessToken")) = true
  /\ opt_prop
       (opt_prop
          (VObj [("variables",
                  VObj [("customerAccessToken", VStr "tok");
                        ("id", VStr "gid://shopify/MailingAddress/1")])])
          "variables")
       "customerAccessToken"
     = opt_prop
         (default VUndefined
            (({[ "customerAccessToken" := sample_token "2030" ]}
                : gmap string value) !! "customerAccessToken"))
         "accessToken".
Proof.
  apply (addresses_action_sends_token (H := sample_platform)
           (sample_context (Resolved (VObj [("customerAddressDelete", VObj [])])))
           (sample_request "DELETE"
              [("addressId", FString "gid://shopify/MailingAddress/1")])
           {[ "customerAccessToken" := sample_token "2030" ]}).
  vm_compute. apply list_elem_of_here.
Defined.

(** ** The profile action *)

Lemma assoc_assign_same {A} (k : string) (v : A) (props : list (string * A)) :
  assoc k (assign k v props) = Some v.
Proof.
  induction props as [|[k' v'] rest IH]; simpl.
  - by rewrite decide_True.
  - destruct (decide (k = k')) as [->|Hne]; simpl.
    + by rewrite decide_True.
    + by rewrite decide_False.
Qed.

Lemma Forall_assign {A} (P : string * A -> Prop) (k : string) (v : A)
    (props : list (string * A)) :
  P (k, v) -> Forall P props -> Forall P (assign k v props).
Proof.
  intros Hkv. induction 1 as [|[k' v'] rest Hhead Hrest IH]; simpl.
  - by constructor.
  - destruct (decide (k = k')); constructor; done.
Qed.

Lemma profile_customer_step_fields (customer : list (string * value))
    (entry : string * form_entry) :
  Forall customer_field customer ->
  Forall customer_field (profile_customer_step customer entry).
Proof.
  intros Hall. destruct entry as [key value]. unfold profile_customer_step.
  unfold Str.mem. case_bool_decide as Hkey; simpl; [|done].
  destruct (decide (key = "acceptsMarketing")) as [->|_].
  { exfalso.
    repeat (apply elem_of_cons in Hkey as [Hkey|Hkey]; [discriminate|]).
    by apply elem_of_nil in Hkey. }
  destruct value as [v|f]; [|done].
  case_bool_decide as Hv; simpl; [done|].
  apply Forall_assign; [|done]. split; [done|]. by exists v.
Qed.

Lemma profile_customer_fields (form : list (string * form_entry))
    (customer : list (string * value)) :
  Forall customer_field customer ->
  Forall customer_field (fold_left profile_customer_step form customer).
Proof.
  revert customer. induction form as [|entry form IH]; intros customer Hall;
    [done|].
  simpl. apply IH. by apply profile_customer_step_fields.
Qed.

Section ProfileSends.

Variable ctx : context.

(** X5. Whatever the profile action sends is the customer update, and every
    field of its customer is one of firstName, lastName, email, password
    and phone with a text that is not empty: acceptsMarketing is never
    sent, and an emptied field is left out rather than sent empty. *)
Theorem profile_action_sends_fields (req : incoming) (s : gmap string value)
    (c : callee) (options : value) :
  (c, options) ∈ sent (snd (profile_action ctx req (fresh s))) ->
  c = StorefrontMutate CUSTOMER_UPDATE_MUTATION
  /\ exists (accessToken : value) (customer : list (string * value)),
      options
      = VObj [("variables",
               VObj [("customerAccessToken", accessToken);
                     ("customer", VObj customer)])]
      /\ Forall customer_field customer.
Proof.
  intros Hin. unfold profile_action, request_formData in Hin.
  destruct req as [req|m message]; simpl in Hin.
  2: { run_handler. unfold sent in Hin.
       destruct (bool_decide (m = "PUT")); simpl in Hin;
         by apply elem_of_nil in Hin. }
  assert (Forall customer_field
            (fold_left profile_customer_step (formData req) [])) as Hall
    by (apply profile_customer_fields; constructor).
  unfold profile_bad_request in Hin. run_handler.
  set (customer := fold_left profile_customer_step (formData req) []) in *.
  clearbody customer. split_run Hin.
  all: unfold sent in Hin; simpl in Hin.
  all: repeat (apply elem_of_cons in Hin as [Hin|Hin]; [simplify_eq|]).
  all: try (by apply elem_of_nil in Hin).
  all: split; [done|]; eexists _, _; split; [reflexivity|].
  all: try done.
  all: apply Forall_assign; [|done]; split;
    [do 3 apply list_elem_of_further; apply list_elem_of_here|].
  all: eexists; split; [reflexivity|].
  all: intros ->; discriminate.
Qed.

(** X6. A PUT to the profile action by a signed-in customer whose form has
    no currentPassword and no new password still sends a password: the
    text "null", which [String] makes of the missing field. *)
Theorem profile_action_sends_null_password (req : request)
    (s : gmap string value) (token : value) :
  method req = "PUT" ->
  s !! "customerAccessToken" = Some token ->
  truthy token = true ->
  form_get "currentPassword" (formData req) = None ->
  entry_truthy (form_get "newPassword" (formData req)) = false ->
  exists options : value,
    sent (snd (profile_action ctx (FormRequest req) (fresh s)))
    = [(StorefrontMutate CUSTOMER_UPDATE_MUTATION, options)]
    /\ opt_prop (opt_prop (opt_prop options "variables") "customer") "password"
       = VStr "null".
Proof.
  intros Hput Htoken Htruthy Hcurrent Hnew.
  unfold profile_action, request_formData, getPassword. simpl.
  rewrite Hput. run_handler. rewrite Hcurrent, Hnew. simpl.
  run_handler. rewrite Htoken. simpl. rewrite Htruthy. simpl.
  rewrite (get_prop_defined token) by (by destruct token).
  simpl. unfold profile_bad_request. run_handler.
  eexists. split.
  - split_goal; reflexivity.
  - simpl. unfold opt_prop at 1. simpl. by rewrite assoc_assign_same.
Qed.

End ProfileSends.

Lemma profile_action_sends_fields_witness :
  exists options : value,
    StorefrontMutate CUSTOMER_UPDATE_MUTATION
    = StorefrontMutate CUSTOMER_UPDATE_MUTATION
    /\ exists (accessToken : value) (customer : list (string * value)),
        options
        = VObj [("variables",
                 VObj [("customerAccessToken", accessToken);
                       ("customer", VObj customer)])]
        /\ Forall customer_field customer.
Proof.
  eexists.
  apply (profile_action_sends_fields (sample_context (Resolved VNull))
           (FormRequest
              (sample_request "PUT"
                 [("firstName", FString "Ada");
                  ("acceptsMarketing", FString "on");
                  ("currentPassword", FString "hunter22")]))
           sample_session).
  vm_compute. apply list_elem_of_here.
Defined.

Lemma profile_action_sends_null_password_witness :
  exists options : value,
    sent (snd (profile_action (sample_context (Resolved VNull))
                 (FormRequest
                    (sample_request "PUT" [("firstName", FString "Ada")]))
                 (fresh sample_session)))
    = [(StorefrontMutate CUSTOMER_UPDATE_MUTATION, options)]
    /\ opt_prop (opt_prop (opt_prop options "variables") "customer") "password"
       = VStr "null".
Proof.
  apply (profile_action_sends_null_password (sample_context (Resolved VNull))
           (sample_request "PUT" [("firstName", FString "Ada")])
           sample_session (sample_token "2030"));
    reflexivity.
Defined.

(** X7. [getPassword] accepts a form in two cases only. Without a new
    password it gives the text of the current password, whatever that is
    (the text "null" when the field is missing). With a new password it
    gives the new password, and only when the current password is there,
    the confirmation is the same entry and the new password differs from
    the current one. *)
Theorem getPassword_accepts (form : list (string * form_entry)) (p : string) :
  let current := form_get "currentPassword" form in
  let new := form_get "newPassword" form in
  let confirm := form_get "newPasswordConfirm" form in
  getPassword form = Normal p
  <-> (entry_truthy new = false
       /\ p = from_option form_entry_string "null" current)
      \/ (entry_truthy new = true
          /\ entry_truthy current = true
          /\ new = confirm
          /\ new <> current
          /\ p = from_option form_entry_string "null" new).
Proof.
  intros current new confirm. unfold getPassword.
  fold current. fold new. fold confirm.
  destruct (entry_truthy new) eqn:Hnew, (entry_truthy current) eqn:Hcur;
    simpl.
  all: repeat case_bool_decide; simpl.
  all: split; [intros Heq|intros [(Hn & Hp)|(Hn & Hc & Hconf & Hdiff & Hp)]].
  all: simplify_eq; try done; auto 10.
Qed.

(** ** The account layout *)

Section AccountLayout.

Context `{Platform}.
Variable ctx : context.
Variable api : further_document -> value -> reply.

(** X8. The loader of the account layout never throws: it answers with
    status 200 or 302. When it sends the visitor to the login page from a
    private page, the account home or after a failed customer query, the
    session has lost its customerAccessToken and the response carries the
    cookie of that session; in every other case the session is as it
    was. *)
Theorem account_loader_answers (req : request) (s : gmap string value) :
  exists (resp : response) (st : site),
    account_loader ctx api req (visit s) = (Normal resp, st)
    /\ (status resp = 200 \/ status resp = 302)
    /\ (assoc "Set-Cookie" (headers resp) = None -> session (base st) = s)
    /\ (forall cookie : string,
          assoc "Set-Cookie" (headers resp) = Some cookie ->
          assoc "Location" (headers resp) = Some "/account/login"
          /\ session (base st) = delete "customerAccessToken" s
          /\ cookie = commitSession ctx (session (base st))).
Proof.
  unfold account_loader. run_site. split_goal.
  all: eexists _, _; split; [reflexivity|]; simpl.
  all: split; [auto|]; split; [done|]; intros cookie Hcookie.
  all: by simplify_eq.
Qed.

(** X9. The account layout shows a customer only to a signed-in visitor of
    a page other than the account home, and only the customer the API
    returned for the accessToken of the session. *)
Theorem account_loader_customer (req : request) (s : gmap string value)
    (resp : response) (st : site) (data : value) :
  account_loader ctx api req (visit s) = (Normal resp, st) ->
  body_of resp = Json data ->
  truthy (opt_prop data "customer") = true ->
  let accessToken :=
    opt_prop (default VUndefined (s !! "customerAccessToken")) "accessToken" in
  truthy accessToken = true
  /\ asked st = [(CUSTOMER_QUERY, customer_query_options ctx accessToken)]
  /\ exists answer : value,
      api CUSTOMER_QUERY (customer_query_options ctx accessToken)
      = Resolved answer
      /\ opt_prop answer "customer" = opt_prop data "customer".
Proof.
  intros Hrun Hbody Hcustomer accessToken. subst accessToken.
  unfold account_loader in Hrun. run_site. split_run Hrun.
  all: simplify_eq; simpl in *; simplify_eq.
  all: opt_props.
  all: split; [by apply negb_false_iff|]; split; [done|].
  all: eexists; split; [eassumption|]; by opt_props.
Qed.

(** X10. Being sent to the login page by the account layout does not come
    back: on the session the layout leaves behind, the loader of the login
    page shows the form and does not redirect to the account. *)
Theorem account_logout_reaches_login (req : request) (s : gmap string value)
    (resp : response) (st : site) :
  account_loader ctx api req (visit s) = (Normal resp, st) ->
  assoc "Location" (headers resp) = Some "/account/login" ->
  login_loader (fresh (session (base st)))
  = (Normal (json (VObj []) None []), fresh (session (base st))).
Proof.
  intros Hrun Hlogin.
  assert (session (base st) !! "customerAccessToken" = None) as Hnone.
  { unfold account_loader in Hrun. run_site. split_run Hrun.
    all: simplify_eq; simpl in *; simplify_eq.
    all: apply lookup_delete_eq. }
  unfold login_loader. run_handler. by rewrite Hnone.
Qed.

End AccountLayout.

Lemma account_loader_customer_witness :
  let ctx := sample_context (Resolved VNull) in
  let accessToken :=
    opt_prop (default VUndefined (sample_session !! "customerAccessToken"))
      "accessToken" in
  exists st : site,
    truthy accessToken = true
    /\ asked st = [(CUSTOMER_QUERY, customer_query_options ctx accessToken)]
    /\ exists answer : value,
        sample_api CUSTOMER_QUERY (customer_query_options ctx accessToken)
        = Resolved answer
        /\ opt_prop answer "customer"
           = opt_prop
               (VObj [("isLoggedIn", VBool true);
                      ("isPrivateRoute", VBool true);
                      ("isAccountHome", VBool false);
                      ("customer", VObj [("firstName", VStr "Ada")])])
               "customer".
Proof.
  intros ctx accessToken. eexists.
  apply (account_loader_customer ctx sample_api
           (sample_page "/account/profile") sample_session
           (json (VObj [("isLoggedIn", VBool true);
                        ("isPrivateRoute", VBool true);
                        ("isAccountHome", VBool false);
                        ("customer", VObj [("firstName", VStr "Ada")])])
              None [("Cache-Control", "no-cache, no-store, must-revalidate")])).
  - vm_compute. reflexivity.
  - reflexivity.
  - reflexivity.
Defined.

Lemma account_logout_reaches_login_witness :
  exists st : site,
    login_loader (fresh (session (base st)))
    = (Normal (json (VObj []) None []), fresh (session (base st))).
Proof.
  eexists.
  eapply (account_logout_reaches_login
            (sample_context (Resolved VNull)) sample_api
            (sample_page "/account/orders") ∅).
  - vm_compute. reflexivity.
  - reflexivity.
Defined.

(** ** Orders, activation and recovery *)

Section AccountForms.

Context `{Platform}.
Variable ctx : context.
Variable api : further_document -> value -> reply.

(** X11. The loader of the orders list never throws and never writes to the
    session. Without an accessToken in the session it redirects to the
    login page and asks nothing; with one it asks for the customer's orders
    once and answers 200, or 400 when the query fails or finds no
    customer. *)
Theorem orders_loader_answers (req : request) (s : gmap string value) :
  let accessToken :=
    opt_prop (default VUndefined (s !! "customerAccessToken")) "accessToken" in
  exists (resp : response) (st : site),
    orders_loader ctx api req (visit s) = (Normal resp, st)
    /\ session (base st) = s
    /\ if truthy accessToken
       then (status resp = 200 \/ status resp = 400)
            /\ asked st
               = [(CUSTOMER_ORDERS_QUERY,
                   orders_query_options ctx req accessToken)]
       else resp = redirect "/account/login" None [] /\ asked st = [].
Proof.
  intros accessToken. subst accessToken.
  unfold orders_loader. run_site.
  destruct (truthy (opt_prop (default VUndefined (s !! "customerAccessToken"))
                      "accessToken")) eqn:Htoken; simpl.
  2: by eexists _, _.
  rewrite (get_prop_defined (default VUndefined (s !! "customerAccessToken")))
    by (by destruct (default VUndefined (s !! "customerAccessToken"))).
  simpl. split_goal.
  all: eexists _, _; split; [reflexivity|]; simpl; auto.
Qed.

(** [password && passwordConfirm && password === passwordConfirm] holds for
    one text that is not empty, given twice. *)
Lemma valid_passwords (a b : value) :
  truthy (js_and (js_and a b) (VBool (same_text a b))) = true ->
  exists x : string, x <> "" /\ a = VStr x /\ b = VStr x.
Proof.
  unfold js_and at 1.
  destruct (truthy (js_and a b)) eqn:Hboth; [|by rewrite Hboth]. simpl.
  intros Hsame. destruct a, b; try discriminate.
  unfold js_and in Hboth. simpl in *.
  apply bool_decide_eq_true in Hsame as ->.
  exists s0. split; [|done]. intros ->. discriminate.
Qed.

Lemma form_text_or_null_text (k : string) (form : list (string * form_entry))
    (x : string) :
  form_text_or_null k form = VStr x ->
  assoc k form <> None /\ form_text k form = x.
Proof.
  unfold form_text_or_null, form_text, form_has, form_get.
  destruct (assoc k form); [|done]. simpl. by intros [= <-].
Qed.

(** X12. The activation action sends its mutation only for a password that
    is not empty and equals its confirmation, and the password it sends is
    that one. *)
Theorem activate_action_sends_confirmed (req : request)
    (params : gmap string string) (s : gmap string value)
    (d : further_document) (options : value) :
  (d, options) ∈ asked (snd (activate_action ctx api req params (visit s))) ->
  exists password : string,
    password <> ""
    /\ assoc "password" (formData req) <> None
    /\ form_text "password" (formData req) = password
    /\ form_text "passwordConfirm" (formData req) = password
    /\ d = CUSTOMER_ACTIVATE_MUTATION
    /\ opt_prop (opt_prop (opt_prop options "variables") "input") "password"
       = VStr password.
Proof.
  intros Hin. unfold activate_action in Hin.
  pose proof (valid_passwords
                (form_text_or_null "password" (formData req))
                (form_text_or_null "passwordConfirm" (formData req)))
    as Hvalid.
  pose proof (form_text_or_null_text "password" (formData req)) as Hp.
  pose proof (form_text_or_null_text "passwordConfirm" (formData req)) as Hpc.
  destruct (truthy
              (js_and
                 (js_and (form_text_or_null "password" (formData req))
                    (form_text_or_null "passwordConfirm" (formData req)))
                 (VBool
                    (same_text (form_text_or_null "password" (formData req))
                       (form_text_or_null "passwordConfirm" (formData req))))))
    eqn:Hv.
  - destruct (Hvalid eq_refl) as (x & Hx & Hpx & Hpcx).
    destruct (Hp x Hpx) as [Hsome Htext].
    destruct (Hpc x Hpcx) as [_ Htextc].
    rewrite Hpx in Hin. clear Hvalid Hp Hpc Hv Hpx Hpcx.
    exists x. run_site. split_run Hin.
    all: simpl in Hin; try (by apply elem_of_nil in Hin).
    all: repeat (apply elem_of_cons in Hin as [Hin|Hin]; [simplify_eq|]).
    all: try (by apply elem_of_nil in Hin).
    all: by repeat split.
  - clear Hvalid Hp Hpc. run_site. split_run Hin.
    all: simpl in Hin; by apply elem_of_nil in Hin.
Qed.

(** X13. A POST to the recovery action with an email answers 200 with
    resetRequested true as soon as the API has answered at all: nothing of
    the answer, not even its customerUserErrors, reaches the response, so
    the page does not tell whether the address is known. *)
Theorem recover_action_ignores_answer (req : request) (s : gmap string value)
    (e : form_entry) (answer : value) :
  method req = "POST" ->
  assoc "email" (formData req) = Some e ->
  form_entry_string e <> "" ->
  api CUSTOMER_RECOVER_MUTATION
    (VObj [("variables", VObj [("email", VStr (form_entry_string e))])])
  = Resolved answer ->
  fst (recover_action api (FormRequest req) (visit s))
  = Normal (json (VObj [("resetRequested", VBool true)]) None []).
Proof.
  intros Hpost Hemail Hne Hreply.
  unfold recover_action, request_formData, form_text_or_null, form_has,
    form_get. run_site.
  rewrite Hpost, Hemail. simpl.
  rewrite bool_decide_eq_false_2 by done. simpl.
  run_site. by rewrite Hreply.
Qed.

End AccountForms.

Lemma activate_action_sends_confirmed_witness :
  let req :=
    sample_request "POST"
      [("password", FString "hunter22");
       ("passwordConfirm", FString "hunter22")] in
  exists (options : value) (password : string),
    password <> ""
    /\ assoc "password" (formData req) <> None
    /\ form_text "password" (formData req) = password
    /\ form_text "passwordConfirm" (formData req) = password
    /\ CUSTOMER_ACTIVATE_MUTATION = CUSTOMER_ACTIVATE_MUTATION
    /\ opt_prop (opt_prop (opt_prop options "variables") "input") "password"
       = VStr password.
Proof.
  intros req. eexists.
  apply (activate_action_sends_confirmed (sample_context (Resolved VNull))
           sample_api req {[ "id" := "42"; "activationToken" := "t0k3n" ]} ∅).
  vm_compute. apply list_elem_of_here.
Defined.

Lemma recover_action_ignores_answer_witness :
  fst (recover_action sample_api
         (FormRequest
            (sample_request "POST" [("email", FString "ada@example.com")]))
         (visit ∅))
  = Normal (json (VObj [("resetRequested", VBool true)]) None []).
Proof.
  apply (recover_action_ignores_answer sample_api
           (sample_request "POST" [("email", FString "ada@example.com")]) ∅
           (FString "ada@example.com") (VObj []));
    [reflexivity|reflexivity|discriminate|reflexivity].
Defined.

(** A body that is not form-encoded has the recovery action throw before it
    looks at the method. *)
Example recover_action_other_body :
  recover_action sample_api
    (OtherRequest "POST" "Could not parse content as FormData.") (visit ∅)
  = (Abrupt (ThrownError "TypeError" "Could not parse content as FormData."),
     visit ∅).
Proof. reflexivity. Qed.

(** ** Order and product pages *)

Section OrderAndProduct.

Context `{Platform}.
Variable ctx : context.

(** X14. The order loader asks the API only for a visitor whose session
    holds a customer access token, only once the id of the URL has been
    decoded, and only for the order of the decoded id. *)
Theorem order_loader_asks_signed_in (params : gmap string string)
    (s : gmap string value) (c : callee) (options : value) :
  (c, options) ∈ sent (snd (order_loader ctx params (fresh s))) ->
  exists id orderId : string,
    params !! "id" = Some id
    /\ atob id = Some orderId
    /\ truthy (default VUndefined (s !! "customerAccessToken")) = true
    /\ c = StorefrontQuery CUSTOMER_ORDER_QUERY
    /\ options = order_query_options orderId.
Proof.
  intros Hin. unfold order_loader in Hin.
  destruct (params !! "id") as [[|a id]|] eqn:Hid.
  1,3: by apply elem_of_nil in Hin.
  destruct (atob (String a id)) as [orderId|] eqn:Hatob.
  2: by apply elem_of_nil in Hin.
  exists (String a id), orderId.
  run_handler.
  destruct (truthy (default VUndefined (s !! "customerAccessToken")))
    eqn:Htoken; simpl in Hin.
  2: by apply elem_of_nil in Hin.
  split_run Hin.
  all: unfold sent in Hin; simpl in Hin.
  all: apply list_elem_of_singleton in Hin; by simplify_eq.
Qed.

(** X15. A product page is never handed a product without a selected
    variant: whenever the product loader returns, the product of its data
    has a selectedVariant. *)
Theorem product_loader_selected_variant (req : request)
    (params : gmap string string) (s : gmap string value)
    (resp : response) (w : world) :
  product_loader ctx req params (fresh s) = (Normal resp, w) ->
  exists product variants : value,
    body_of resp = Deferred (VObj [("product", product); ("variants", variants)])
    /\ truthy (opt_prop product "selectedVariant") = true.
Proof.
  intros Hrun. unfold product_loader, redirectToFirstVariant in Hrun.
  run_handler. split_run Hrun.
  all: simplify_eq; simpl.
  all: eexists _, _; split; [reflexivity|].
  - match goal with
    | E : set_prop ?p _ ?v = Normal _ |- _ =>
        destruct p; simpl in E; simplify_eq
    end.
    unfold opt_prop. simpl. rewrite assoc_assign_same.
    match goal with
    | E : array_find _ ?o = Normal _ |- _ =>
        destruct o; simpl in E; try discriminate
    end.
    match goal with
    | E : get_prop ?v "selectedOptions" = Normal (VArr _) |- _ =>
        destruct v; simpl in E; try discriminate
    end.
    all: try done; by repeat case_decide.
  - opt_props. by apply negb_false_iff.
Qed.

End OrderAndProduct.

Lemma order_loader_asks_signed_in_witness :
  exists (options : value) (id orderId : string),
    ({[ "id" := "Z2lkOi8v" ]} : gmap string string) !! "id" = Some id
    /\ atob (Platform := sample_platform) id = Some orderId
    /\ truthy (default VUndefined (sample_session !! "customerAccessToken"))
       = true
    /\ StorefrontQuery CUSTOMER_ORDER_QUERY = StorefrontQuery CUSTOMER_ORDER_QUERY
    /\ options = order_query_options orderId.
Proof.
  eexists.
  apply (order_loader_asks_signed_in (H := sample_platform)
           (sample_context (Resolved (VObj [("order", VNull)])))
           {[ "id" := "Z2lkOi8v" ]} sample_session).
  vm_compute. apply list_elem_of_here.
Defined.

Lemma product_loader_selected_variant_witness :
  exists (resp : response) (product variants : value),
    body_of resp = Deferred (VObj [("product", product); ("variants", variants)])
    /\ truthy (opt_prop product "selectedVariant") = true.
Proof.
  eexists.
  eapply (product_loader_selected_variant (H := sample_platform)
            (sample_context (Resolved (VObj [("product", sample_product)])))
            (sample_request "GET" []) {[ "handle" := "boot" ]} ∅).
  vm_compute. reflexivity.
Defined.

(** ** Filters in the URL and in the collection loader *)

Lemma rev_app_rev_app (n a b : string) :
  String.rev_app (String.rev_app n a) b = String.rev_app a (n +:+ b).
Proof.
  revert a b. induction n as [|c n IH]; intros a b; [done|].
  change (String.rev_app (String.rev_app n (String c a)) b
          = String.rev_app a (String c (n +:+ b))).
  by rewrite IH.
Qed.

Lemma append_empty (s : string) : s +:+ "" = s.
Proof.
  induction s as [|c s IH]; [done|].
  change (String c (s +:+ "") = String c s). by rewrite IH.
Qed.

Lemma before_colon_cons (c : ascii) (s : string) :
  colon_free (String c s) -> Ascii.eqb c ":" = false /\ colon_free s.
Proof.
  unfold colon_free. simpl. destruct (Ascii.eqb c ":"); [done|].
  by intros [= ?].
Qed.

(** Splitting at colons, for a text that starts with a colon-free piece
    and a colon. *)
Lemma split_from_piece (n cur rest : string) :
  colon_free n ->
  Str.split_from ":" cur (n +:+ String ":" rest)
  = String.rev (String.rev_app n cur) :: Str.split_from ":" "" rest.
Proof.
  revert cur. induction n as [|c n IH]; intros cur Hfree.
  - change (Str.split_from ":" cur (String ":" rest)
            = String.rev cur :: Str.split_from ":" "" rest).
    done.
  - apply before_colon_cons in Hfree as [Hc Hfree].
    change (Str.split_from ":" cur (String c (n +:+ String ":" rest))
            = String.rev (String.rev_app n (String c cur))
                :: Str.split_from ":" "" rest).
    simpl. rewrite Hc. by apply IH.
Qed.

(** The first piece of a split is the text before the first colon. *)
Lemma split_from_head (v cur : string) :
  exists tail : list string,
    Str.split_from ":" cur v
    = String.rev (String.rev_app (before_colon v) cur) :: tail.
Proof.
  revert cur. induction v as [|c v IH]; intros cur; simpl; [by eexists|].
  destruct (Ascii.eqb c ":"); [by eexists|]. apply IH.
Qed.

Lemma rev_rev_app (n : string) : String.rev (String.rev_app n "") = n.
Proof.
  unfold String.rev. by rewrite rev_app_rev_app, append_empty.
Qed.

Lemma includes_self (v : string) : Str.includes v v = true.
Proof.
  assert (String.prefix v v = true) as Hprefix.
  { induction v as [|c v IH]; simpl; [done|].
    destruct (ascii_dec c c); [done|congruence]. }
  destruct v; simpl in *; [done|]. by rewrite Hprefix.
Qed.

Lemma assoc_elem_of {A} (k : string) (v : A) (l : list (string * A)) :
  assoc k l = Some v -> (k, v) ∈ l.
Proof.
  induction l as [|[k' v'] rest IH]; simpl; [done|].
  destruct (decide (k = k')) as [->|Hne].
  - intros [= ->]. apply list_elem_of_here.
  - intros Hrest. apply list_elem_of_further. by apply IH.
Qed.

Section CollectionFilters.

Context `{Platform}.
Variable ctx : context.

(** X16. A variant option encoded into the URL by the filter drawer is read
    back by the collection loader with its name, when the name has no
    colon, and with the part of its value before the first colon: the
    whole value when it has none, a cut one otherwise. *)
Theorem variant_option_round_trip (key name val : string) :
  colon_free name ->
  let input :=
    VObj [(key, VObj [("name", VStr name); ("value", VStr val)])] in
  let encoded := snd (filterInputToParams LIST input []) in
  encoded = [("variantOption", name +:+ ":" +:+ val)]
  /\ fst (fold_left collection_filter_step encoded ([], []))
     = [VObj [("variantOption",
               VObj [("name", VStr name);
                     ("value", VStr (before_colon val))])]].
Proof.
  intros Hfree input encoded. subst input encoded.
  split; [reflexivity|].
  unfold filterInputToParams. simpl.
  change (bind (for_of [] list_filter_entry) _) with
    (bind (for_of [] list_filter_entry) (fun _ => ret tt)).
  unfold bind, lift, ret, gets, params_append, modify,
    URLSearchParams.append. simpl.
  unfold Str.split.
  change (":" +:+ val) with (String ":" val).
  rewrite split_from_piece by done.
  destruct (split_from_head val "") as [tail ->].
  by rewrite !rev_rev_app.
Qed.

Lemma collection_filter_step_points_at (params : URLSearchParams.t)
    (acc : list value * list value) (entry : string * string) :
  entry ∈ params ->
  Forall (points_at params) (snd acc) ->
  Forall (points_at params) (snd (collection_filter_step acc entry)).
Proof.
  intros Hentry Hacc. destruct acc as [filters applied], entry as [key value].
  unfold collection_filter_step. simpl in Hacc.
  destruct (decide ("available" = key)) as [<-|_]; simpl.
  { apply Forall_app. split; [done|]. repeat constructor.
    by eexists _, _, _. }
  destruct (Str.mem key ["productVendor"; "productType"]); simpl.
  { apply Forall_app. split; [done|]. repeat constructor.
    by eexists _, _, _. }
  destruct (Str.includes key "variantOption"); simpl; [|done].
  apply Forall_app. split; [done|]. repeat constructor.
  by eexists _, _, _.
Qed.

Lemma collection_filter_loop_points_at (params entries : URLSearchParams.t)
    (acc : list value * list value) :
  entries ⊆ params ->
  Forall (points_at params) (snd acc) ->
  Forall (points_at params)
    (snd (fold_left collection_filter_step entries acc)).
Proof.
  revert acc. induction entries as [|entry entries IH]; intros acc Hsub Hacc;
    [done|].
  simpl. apply IH.
  - intros e He. apply Hsub. by apply list_elem_of_further.
  - apply collection_filter_step_points_at; [|done].
    apply Hsub. apply list_elem_of_here.
Qed.

Lemma has_get (k : string) (params : URLSearchParams.t) :
  URLSearchParams.has k params = true ->
  exists v, URLSearchParams.get k params = Some v /\ (k, v) ∈ params.
Proof.
  unfold URLSearchParams.has, URLSearchParams.get.
  destruct (assoc k params) as [v|] eqn:Hget; [|done].
  intros _. exists v. split; [done|]. by apply assoc_elem_of.
Qed.

(** X17. Every applied filter the collection loader reports points at an
    entry of the request's search parameters: its urlParam is the key and
    the value of an entry that is there. *)
Theorem applied_filters_point_at_entries (req : request) (handle : string) :
  Forall (points_at (searchParams req))
    (snd (collection_query_options ctx req handle)).
Proof.
  unfold collection_query_options.
  pose proof (collection_filter_loop_points_at (searchParams req)
                (searchParams req) ([], []) (reflexivity _)
                (Forall_nil_2 _)) as Hloop.
  destruct (fold_left collection_filter_step (searchParams req) ([], []))
    as [filters applied].
  simpl in Hloop. unfold collection_price_filter.
  pose proof (has_get "minPrice" (searchParams req)) as Hmin.
  pose proof (has_get "maxPrice" (searchParams req)) as Hmax.
  destruct (URLSearchParams.has "minPrice" (searchParams req)),
    (URLSearchParams.has "maxPrice" (searchParams req)); simpl; [| | |done].
  - destruct (Hmin eq_refl) as (vmin & -> & Hinmin).
    destruct (Hmax eq_refl) as (vmax & -> & Hinmax). simpl.
    rewrite !Forall_app. repeat split; [done| |].
    all: repeat constructor; by eexists _, _, _.
  - destruct (Hmin eq_refl) as (vmin & -> & Hinmin). simpl.
    rewrite !Forall_app. repeat split; [done|].
    repeat constructor; by eexists _, _, _.
  - destruct (Hmax eq_refl) as (vmax & -> & Hinmax). simpl.
    rewrite !Forall_app. repeat split; [done|].
    repeat constructor; by eexists _, _, _.
Qed.

(** X18. The link that removes an applied filter leaves no entry equal to
    the filter's urlParam, whatever the search parameters: the filter is
    gone from the page the link leads to. *)
Theorem applied_filter_removed (filter : AppliedFilter)
    (params : URLSearchParams.t) :
  (urlParam_key filter, urlParam_value filter)
    ∉ applied_filter_params filter params.
Proof.
  assert (forall p : URLSearchParams.t,
             (urlParam_key filter, urlParam_value filter)
               ∉ URLSearchParams.delete (urlParam_key filter) p) as Hdeleted.
  { intros p Hin. unfold URLSearchParams.delete in Hin.
    apply list_elem_of_In, List.filter_In in Hin as [_ Hkey].
    simpl in Hkey. by rewrite bool_decide_eq_true_2 in Hkey. }
  unfold applied_filter_params.
  destruct (decide (urlParam_key filter = "variantOption")); [|done].
  rewrite URLSearchParamsFacts.append_all. intros Hin.
  apply elem_of_app in Hin as [Hin|Hin]; [by apply Hdeleted in Hin|].
  apply list_elem_of_fmap in Hin as (v & [= <-] & Hv).
  apply list_elem_of_In, List.filter_In in Hv as [_ Hnot].
  by rewrite includes_self in Hnot.
Qed.

End CollectionFilters.

Lemma variant_option_round_trip_witness :
  let input :=
    VObj [("variantOption",
           VObj [("name", VStr "Color"); ("value", VStr "Red:Dark")])] in
  let encoded :=
    snd (filterInputToParams (H := sample_platform) LIST input []) in
  encoded = [("variantOption", "Color" +:+ ":" +:+ "Red:Dark")]
  /\ fst (fold_left collection_filter_step encoded ([], []))
     = [VObj [("variantOption",
               VObj [("name", VStr "Color");
                     ("value", VStr (before_colon "Red:Dark"))])]].
Proof.
  apply (variant_option_round_trip (H := sample_platform) "variantOption"
           "Color" "Red:Dark").
  reflexivity.
Defined.

(** ** The filter drawer *)

Module DrawerFacts.

Import URLSearchParams URLSearchParamsFacts.

Lemma get_getAll (k v : string) (vs : list string) (params : t) :
  getAll k params = v :: vs -> get k params = Some v.
Proof.
  unfold get. induction params as [|[k' v'] rest IH]; [done|].
  rewrite getAll_cons. simpl. destruct (decide (k = k')) as [->|Hne].
  - rewrite bool_decide_eq_true_2 by done. by intros [= ->].
  - rewrite bool_decide_eq_false_2 by done. exact IH.
Qed.

Lemma get_elem_of (k v : string) (params : t) :
  v ∈ getAll k params -> exists v', get k params = Some v'.
Proof.
  destruct (getAll k params) as [|v' vs] eqn:Hall.
  - intros Hin. by apply elem_of_nil in Hin.
  - intros _. exists v'. by eapply get_getAll.
Qed.

Lemma delete_set_same (k v : string) (params : t) :
  delete k (set k v params) = delete k params.
Proof.
  induction params as [|[k' v'] rest IH]; cbn [set].
  - by rewrite delete_cons, bool_decide_eq_true_2.
  - destruct (decide (k' = k)) as [->|Hne].
    + by rewrite !delete_cons, !bool_decide_eq_true_2, delete_delete.
    + rewrite !delete_cons, !bool_decide_eq_false_2 by done. by rewrite IH.
Qed.

Lemma set_set (k v1 v2 : string) (params : t) :
  set k v2 (set k v1 params) = set k v2 params.
Proof.
  induction params as [|[k' v'] rest IH]; cbn [set].
  - by rewrite decide_True.
  - destruct (decide (k' = k)) as [->|Hne]; cbn [set].
    + by rewrite decide_True, delete_delete.
    + by rewrite decide_False, IH.
Qed.

End DrawerFacts.

Section Drawer.

Context `{Platform}.

(** The entry a settled write stands for is shown as active. *)
Lemma settled_entry_active (entry : string * value) (o : param_write)
    (params : URLSearchParams.t) :
  entry_write entry = Some o ->
  settled o params ->
  filter_entry_active params entry = Normal true.
Proof.
  destruct entry as [key v]. unfold entry_write, filter_entry_active. simpl.
  destruct v; intros [= <-]; simpl; intros Hsettled.
  all: first
         [ by rewrite (DrawerFacts.get_getAll _ _ _ _ Hsettled),
             bool_decide_eq_true_2
         | unfold Str.mem; by rewrite bool_decide_eq_true_2 ].
Qed.

(** The encoder on a LIST input, as the writes of its properties. *)
Lemma filterInputToParams_list_writes (rawInput : value)
    (props : list (string * value)) (ws : list param_write)
    (params : URLSearchParams.t) :
  input_of rawInput = Some (VObj props) ->
  Forall2 (fun e o => entry_write e = Some o) props ws ->
  filterInputToParams LIST rawInput params = (Normal tt, writes ws params).
Proof.
  intros Hinput Hws. unfold filterInputToParams, input_of in *.
  assert (bind (ret (VObj props))
            (fun input =>
               bind (lift (Object_entries input))
                 (fun entries => for_of entries list_filter_entry))
            params
          = for_of props list_filter_entry params) as Hrun by done.
  destruct rawInput; simplify_eq; try rewrite Hinput.
  all: rewrite Hrun.
  all: by apply for_of_writes.
Qed.

(** X19. A filter that has just been encoded into the search parameters is
    shown as active: for a LIST input with at least one property, all
    variant options or all strings and booleans, [isFilterActive] holds on
    the parameters [filterInputToParams] leaves. *)
Theorem encoded_filter_is_active (rawInput : value)
    (entry : string * value) (props : list (string * value))
    (params : URLSearchParams.t) :
  input_of rawInput = Some (VObj (entry :: props)) ->
  filter_input LIST (VObj (entry :: props)) ->
  isFilterActive LIST rawInput
    (snd (filterInputToParams LIST rawInput params))
  = Normal true.
Proof.
  intros Hinput Hfilter.
  assert (exists ws,
             Forall2 (fun e o => entry_write e = Some o) (entry :: props) ws
             /\ independent_writes ws) as (ws & Hws & Hind).
  { inversion Hfilter as [ps Hps|ps Hnodup Hps|]; subst.
    - destruct (variant_option_writes _ Hps) as (ws & Hws & Hadd).
      exists ws. split; [done|]. by apply add_variants_independent.
    - destruct (scalar_writes _ Hps) as (ws & Hws & Hover).
      exists ws. split; [done|]. by eapply overwrites_independent. }
  assert (isFilterActive LIST rawInput
          = fun p => some_entry (filter_entry_active p) (entry :: props))
    as ->.
  { unfold isFilterActive, input_of in *.
    destruct rawInput; simplify_eq; try reflexivity. by rewrite Hinput. }
  rewrite (filterInputToParams_list_writes _ _ ws params Hinput Hws).
  cbn [snd].
  inversion Hws as [|e o es ws' Ho Hrest]; subst.
  pose proof (ParamWrites.writes_all_settled (o :: ws') params Hind) as Hall.
  inversion Hall as [|? ? Hsettled _]; subst.
  cbn [some_entry]. by rewrite (settled_entry_active _ _ _ Ho Hsettled).
Qed.

(** X20. [getSortLink] leaves exactly one sort entry, with the value asked
    for, and every entry under another key where it was; its link is the
    serialisation of these parameters. *)
Theorem getSortLink_sets_sort (sort location_pathname : string)
    (params : URLSearchParams.t) :
  exists params' : URLSearchParams.t,
    getSortLink sort location_pathname params
    = (Normal (location_pathname +:+ "?" +:+ urlencoded params'), params')
    /\ URLSearchParams.getAll "sort" params' = [sort]
    /\ URLSearchParams.delete "sort" params'
       = URLSearchParams.delete "sort" params
    /\ getSortValuesFromParam (URLSearchParams.get "sort" params')
       = getSortValuesFromParam (Some sort).
Proof.
  eexists. split; [reflexivity|].
  pose proof (URLSearchParamsFacts.getAll_set_same "sort" sort params) as Hall.
  repeat split; [done|apply DrawerFacts.delete_set_same|].
  by rewrite (DrawerFacts.get_getAll _ _ _ _ Hall).
Qed.

(** X21. [SortMenu] computes its five links on the one parameters object it
    holds. Each link is the link of its own sort key on the parameters as
    they were, so the sharing does not show in the links; but the object is
    left with sort=newest, and read again it names Newest as the active
    item, whatever the sort parameter was. *)
Theorem sort_menu_shares_params (location_pathname : string)
    (params : URLSearchParams.t) :
  sort_menu_links location_pathname params
  = (Normal
       ((fun item =>
           location_pathname +:+ "?"
             +:+ urlencoded (URLSearchParams.set "sort" (snd item) params))
          <$> sort_menu_items),
     URLSearchParams.set "sort" "newest" params)
  /\ sort_menu_active (URLSearchParams.set "sort" "newest" params) = "Newest".
Proof.
  split.
  - unfold sort_menu_links, sort_menu_items, getSortLink. simpl.
    unfold bind, ret, gets, params_set, modify. simpl.
    by rewrite !DrawerFacts.set_set.
  - unfold sort_menu_active.
    pose proof (URLSearchParamsFacts.getAll_set_same "sort" "newest" params)
      as Hall.
    by rewrite (DrawerFacts.get_getAll _ _ _ _ Hall).
Qed.

(** X22. The price range form cannot clear a bound. When it does not
    navigate the parameters are as they were; when it does, a bound whose
    field is empty keeps the entries it had, and a bound whose field is
    filled has that text as its one entry. *)
Theorem price_range_effect_keeps_bounds (minPrice maxPrice : string)
    (min max : value) (location_pathname : string)
    (params : URLSearchParams.t) :
  exists (target : option string) (params' : URLSearchParams.t),
    price_range_effect minPrice maxPrice min max location_pathname params
    = (Normal target, params')
    /\ (target = None -> params' = params)
    /\ (minPrice = "" ->
        URLSearchParams.getAll "minPrice" params'
        = URLSearchParams.getAll "minPrice" params)
    /\ (maxPrice = "" ->
        URLSearchParams.getAll "maxPrice" params'
        = URLSearchParams.getAll "maxPrice" params)
    /\ (target <> None -> minPrice <> "" ->
        URLSearchParams.getAll "minPrice" params' = [minPrice])
    /\ (target <> None -> maxPrice <> "" ->
        URLSearchParams.getAll "maxPrice" params' = [maxPrice]).
Proof.
  unfold price_range_effect.
  destruct ((bool_decide (minPrice = "")
             || bool_decide (minPrice = to_string min))
            && (bool_decide (maxPrice = "")
                || bool_decide (maxPrice = to_string max))) eqn:Hsame.
  { eexists _, _. split; [reflexivity|]. by repeat split. }
  unfold filterInputToParams, bind, ret, lift, gets, params_set, modify.
  destruct (decide (minPrice = "")) as [->|Hmin],
    (decide (maxPrice = "")) as [->|Hmax]; simpl.
  all: rewrite ?bool_decide_eq_false_2 by done; simpl.
  all: try (destruct minPrice; [done|]); try (destruct maxPrice; [done|]).
  all: simpl.
  all: eexists _, _; split; [reflexivity|].
  all: repeat split; try done; intros.
  all: rewrite ?URLSearchParamsFacts.getAll_set_same; try done.
  all: rewrite ?URLSearchParamsFacts.getAll_set_other by done.
  all: by rewrite ?URLSearchParamsFacts.getAll_set_same.
Qed.

End Drawer.

Lemma encoded_filter_is_active_witness :
  isFilterActive (H := sample_platform) LIST sample_variant_input
    (snd (filterInputToParams (H := sample_platform) LIST sample_variant_input
            [("sort", "newest")]))
  = Normal true.
Proof.
  apply (encoded_filter_is_active (H := sample_platform) sample_variant_input
           ("variantOption",
            VObj [("name", VStr "Color"); ("value", VStr "Red")])
           [] [("sort", "newest")]).
  - reflexivity.
  - apply variant_option_input. repeat constructor. simpl. eauto.
Defined.

(** ** The root loader and the session *)

(** Evaluate the reads of a response that is known: a property of an
    object literal, the presence of a header. *)
Ltac read_response :=
  repeat match goal with
         | |- context [opt_prop (VObj ?l) ?k] =>
             let v := eval cbv in (opt_prop (VObj l) k) in
             change (opt_prop (VObj l) k) with v
         | |- context [has_header ?n ?r] =>
             let v := eval cbv in (has_header n r) in
             change (has_header n r) with v
         end.

Section RootSession.

Context `{Platform}.
Variable ctx : context.

(** X23. The root loader touches nothing of the session but the customer
    access token, and that only to remove it. What it returns reports the
    visitor as logged in exactly when the session's token has both fields
    and is not expired, and carries a Set-Cookie header exactly when the
    token has both fields and is expired, in which case the token is
    removed. *)
Theorem root_loader_session (s : gmap string value) (resp : response)
    (w : world) :
  root_loader ctx (fresh s) = (Normal resp, w) ->
  let token := default VUndefined (s !! "customerAccessToken") in
  (session w = s \/ session w = delete "customerAccessToken" s)
  /\ (exists data : value,
        body_of resp = Deferred data
        /\ (opt_prop data "isLoggedIn" = VBool true
            <-> token_present token /\ ~ token_expired ctx token))
  /\ (has_header "Set-Cookie" resp = true
      <-> token_present token /\ token_expired ctx token)
  /\ (has_header "Set-Cookie" resp = true ->
      session w = delete "customerAccessToken" s)
  /\ (has_header "Set-Cookie" resp = false -> session w = s).
Proof.
  intros Hrun token. subst token.
  unfold root_loader, validateCustomerAccessToken in Hrun.
  unfold token_present, token_expired.
  run_handler.
  destruct (truthy (opt_prop (default VUndefined (s !! "customerAccessToken"))
                      "accessToken")) eqn:Ha; simpl in Hrun.
  2: { split_run Hrun. all: simplify_eq; simpl.
       all: split; [by left|]; split; [eexists; split; [reflexivity|]|].
       all: read_response; intuition congruence. }
  destruct (truthy (opt_prop (default VUndefined (s !! "customerAccessToken"))
                      "expiresAt")) eqn:He; simpl in Hrun.
  2: { split_run Hrun. all: simplify_eq; simpl.
       all: split; [by left|]; split; [eexists; split; [reflexivity|]|].
       all: read_response; intuition congruence. }
  destruct (Date_getTime
              (opt_prop (default VUndefined (s !! "customerAccessToken"))
                 "expiresAt")) as [t|] eqn:Ht.
  2: { split_run Hrun. all: simplify_eq; simpl.
       all: split; [by left|]; split; [eexists; split; [reflexivity|]|].
       all: read_response.
       all: assert (~ exists t', None = Some t' /\ t' < Date_now ctx)
         by (by intros (t' & Ht' & _)).
       all: intuition congruence. }
  destruct (Z.ltb_spec t (Date_now ctx)) as [Hlt|Hge]; simpl in Hrun.
  - split_run Hrun. all: simplify_eq; simpl.
    all: split; [by right|]; split; [eexists; split; [reflexivity|]|].
    all: read_response.
    all: assert (exists t', Some t = Some t' /\ t' < Date_now ctx) by eauto.
    all: intuition congruence.
  - split_run Hrun. all: simplify_eq; simpl.
    all: split; [by left|]; split; [eexists; split; [reflexivity|]|].
    all: read_response.
    all: assert (~ exists t', Some t = Some t' /\ t' < Date_now ctx)
      by (intros (t' & Ht' & Hlt); simplify_eq; lia).
    all: intuition congruence.
Qed.

End RootSession.

Lemma root_loader_session_witness :
  let ctx := sample_context (Resolved (VObj [])) in
  let s : gmap string value :=
    {[ "customerAccessToken" := sample_token "2020" ]} in
  let token := default VUndefined (s !! "customerAccessToken") in
  exists (resp : response) (w : world),
    (session w = s \/ session w = delete "customerAccessToken" s)
    /\ (exists data : value,
          body_of resp = Deferred data
          /\ (opt_prop data "isLoggedIn" = VBool true
              <-> token_present token
                  /\ ~ token_expired (H := sample_platform) ctx token))
    /\ (has_header "Set-Cookie" resp = true
        <-> token_present token
            /\ token_expired (H := sample_platform) ctx token)
    /\ (has_header "Set-Cookie" resp = true ->
        session w = delete "customerAccessToken" s)
    /\ (has_header "Set-Cookie" resp = false -> session w = s).
Proof.
  intros ctx s token. eexists _, _.
  eapply (root_loader_session (H := sample_platform) ctx s).
  vm_compute. reflexivity.
Defined.

(** ** Articles and policies *)

Section ArticlesAndPolicies.

Context `{Platform}.
Variable api : further_document -> value -> reply.

(** X24. The article loader asks nothing when a handle is missing from the
    URL and throws a 404 at once; and what it returns always holds an
    article: a blog or an article the API does not find ends in a 404,
    never in a page without content. *)
Theorem article_loader_article (params : gmap string string)
    (s : gmap string value) :
  let run := article_loader api params (visit s) in
  (params !! "blogHandle" = None \/ params !! "articleHandle" = None ->
   run = (Abrupt (ThrownResponse (Response (Some "Not found") 404)), visit s))
  /\ (forall resp : response,
        fst run = Normal resp ->
        exists article : value,
          resp = json (VObj [("article", article)]) None []
          /\ truthy article = true)
  /\ (forall (blogHandle articleHandle : string) (data : value),
        params !! "blogHandle" = Some blogHandle ->
        params !! "articleHandle" = Some articleHandle ->
        blogHandle <> "" -> articleHandle <> "" ->
        api ARTICLE_QUERY
          (VObj [("variables",
                  VObj [("blogHandle", VStr blogHandle);
                        ("articleHandle", VStr articleHandle)])])
        = Resolved data ->
        nullish data = false ->
        truthy (opt_prop (opt_prop data "blog") "articleByHandle") = false ->
        fst run = Abrupt (ThrownResponse (Response None 404))).
Proof.
  intros run. subst run. unfold article_loader, param.
  repeat split.
  - intros [-> | ->]; simpl; [|by destruct (params !! "blogHandle") as [[|]|]].
    by destruct (params !! "articleHandle") as [[|]|].
  - intros resp. run_site. split_goal.
    all: intros Hresp; simplify_eq.
    all: eexists; split; [reflexivity|]; opt_props; by apply negb_false_iff.
  - intros blogHandle articleHandle data -> -> Hblog Harticle Hreply Hdata
      Hmissing.
    run_site. simpl.
    rewrite !bool_decide_eq_false_2 by done. simpl. rewrite Hreply.
    rewrite (get_prop_defined data "blog" Hdata). simpl.
    by rewrite Hmissing.
Qed.

(** The decimal text of a number never starts with the N of NaN. *)
Lemma pretty_N_go_ne_NaN (x : N) (s : string) :
  (forall t, s <> String "N" t) -> forall t, pretty_N_go x s <> String "N" t.
Proof.
  revert s. induction (N.lt_wf_0 x) as [x _ IH]; intros s Hs t.
  destruct (decide (x = 0)%N) as [->|Hx].
  { rewrite pretty_N_go_0. apply Hs. }
  rewrite pretty_N_go_step by lia.
  apply IH; [apply N.div_lt; lia|].
  intros t' Heq. injection Heq as Hc _.
  unfold pretty_N_char in Hc. repeat case_match; done.
Qed.

(** The length of an array that has an element is a truthy number. *)
Lemma positive_length_truthy (n : nat) :
  truthy (VNum (nat_repr (S n))) = true.
Proof.
  unfold truthy, nat_repr.
  rewrite bool_decide_eq_false_2.
  2: { change "0" with (pretty 0%nat). by intros ?%(inj pretty). }
  rewrite bool_decide_eq_false_2; [done|].
  unfold pretty, pretty_nat, pretty, pretty_N.
  rewrite decide_False by lia.
  apply pretty_N_go_ne_NaN. done.
Qed.

(** X25. On an answer whose shop is an object, the policies loader throws
    its 404 exactly when the shop has no field at all; a shop with fields,
    be they all null, gets a page with the value of every one of them, in
    order. *)
Theorem policies_loader_lists_fields (s : gmap string value)
    (data : value) (fields : list (string * value)) :
  api POLICIES_QUERY VUndefined = Resolved data ->
  get_prop data "shop" = Normal (VObj fields) ->
  fst (policies_loader api (visit s))
  = match fields with
    | [] => Abrupt (ThrownResponse (Response (Some "No policies found") 404))
    | _ => Normal (json (VObj [("policies", VArr (snd <$> fields))]) None [])
    end.
Proof.
  intros Hreply Hshop. unfold policies_loader. run_site.
  rewrite Hreply. simpl. rewrite Hshop. simpl.
  destruct fields as [|field fields]; [done|].
  unfold Object_values. cbn [Object_entries fmap list_fmap length].
  pose proof (positive_length_truthy (length (snd <$> fields))) as Hlen.
  simpl in Hlen. by rewrite Hlen.
Qed.

End ArticlesAndPolicies.

Lemma policies_loader_lists_fields_witness :
  fst (policies_loader sample_api (visit ∅))
  = Normal (json (VObj [("policies", VArr (snd <$> [("privacyPolicy", VNull)]))])
              None []).
Proof.
  apply (policies_loader_lists_fields sample_api ∅
           (VObj [("shop", VObj [("privacyPolicy", VNull)])])
           [("privacyPolicy", VNull)]);
    reflexivity.
Defined.

(** ** Resource loaders and the session *)

Section ResourceLoaders.

Context `{Platform}.
Variable ctx : context.

(** X26. The four resource loaders never write to the session and never
    send a mutation; and when the parameter that names the resource is
    missing from the route or empty, they send nothing at all. *)
Theorem resource_loader_reads_only (r : resource_route) (req : request)
    (params : gmap string string) (s : gmap string value) :
  let run := resource_loader ctx r req params (fresh s) in
  session (snd run) = s
  /\ (forall (c : callee) (options : value),
        (c, options) ∈ sent (snd run) -> exists d : document, c = StorefrontQuery d)
  /\ (truthy (param params (resource_param r)) = false ->
      trace (snd run) = []).
Proof.
  intros run. subst run. unfold resource_loader, resource_param, param.
  destruct r.
  all: unfold collection_loader, blog_loader, product_loader, order_loader,
         redirectToFirstVariant.
  all: try (destruct (collection_query_options ctx req _) as [options applied]).
  all: run_handler; split_goal.
  all: split; [done|]; split; [|done].
  all: intros c options' Hin; unfold sent in Hin; simpl in Hin.
  all: repeat (apply elem_of_cons in Hin as [Hin|Hin]; [simplify_eq; by eexists|]).
  all: by apply elem_of_nil in Hin.
Qed.

End ResourceLoaders.

(** ** The product form *)

(** X27. The product page is consistent about a variant that cannot be
    bought: [ProductForm] never throws, its button is disabled exactly when
    [ProductBadges] shows the Sold out badge and exactly when the button
    reads Sold out, and a form without a line to add is disabled. *)
Theorem product_form_sold_out (selectedVariant : value) :
  exists form : add_to_cart,
    ProductForm selectedVariant = Normal form
    /\ (disabled form = true
        <-> ("Sold out", "outline") ∈ ProductBadges selectedVariant)
    /\ (disabled form = true <-> children form = "Sold out")
    /\ (lines form = [] -> disabled form = true).
Proof.
  unfold ProductForm, ProductBadges.
  destruct (truthy selectedVariant) eqn:Htruthy; simpl.
  - rewrite (get_prop_defined selectedVariant "availableForSale")
      by (by destruct selectedVariant).
    rewrite (get_prop_defined selectedVariant "id")
      by (by destruct selectedVariant).
    eexists. split; [reflexivity|]. simpl.
    destruct (truthy (opt_prop selectedVariant "compareAtPrice")),
      (truthy (opt_prop selectedVariant "availableForSale")); simpl.
    all: repeat split; try done.
    all: rewrite ?elem_of_cons, ?elem_of_nil; intuition congruence.
  - assert (truthy (opt_prop selectedVariant "availableForSale") = false)
      as ->.
    { destruct selectedVariant; try done; simpl in *.
      all: unfold opt_prop; simpl; by repeat case_decide. }
    eexists. split; [reflexivity|]. simpl.
    destruct (truthy (opt_prop selectedVariant "compareAtPrice")); simpl.
    all: repeat split; try done.
    all: intros _; rewrite ?elem_of_cons; auto.
Qed.

(** ** The quantity buttons *)

(** X28. On a cart line with a quantity that is not negative, the decrease
    button never submits a negative quantity, and where it is enabled it
    submits a quantity that keeps the line; the increase button followed by
    the decrease button gives the quantity back. *)
Theorem cart_line_quantity_steps (quantity : Z) :
  0 <= quantity < 2 ^ 53 - 1 ->
  let buttons := CartLineQuantity quantity in
  0 <= prevQuantity buttons
  /\ (decrease_disabled buttons = false ->
      prevQuantity buttons = quantity - 1 /\ 1 <= prevQuantity buttons)
  /\ prevQuantity (CartLineQuantity (nextQuantity buttons)) = quantity
  /\ decrease_disabled (CartLineQuantity (nextQuantity buttons))
     = bool_decide (quantity = 0).
Proof.
  intros Hrange buttons. subst buttons. unfold CartLineQuantity. simpl.
  split; [lia|]. split; [|split; [lia|]].
  - intros Hle%Z.leb_gt. lia.
  - case_bool_decide; [apply Z.leb_le|apply Z.leb_gt]; lia.
Qed.

Lemma cart_line_quantity_steps_witness :
  let buttons := CartLineQuantity 3 in
  0 <= prevQuantity buttons
  /\ (decrease_disabled buttons = false ->
      prevQuantity buttons = 3 - 1 /\ 1 <= prevQuantity buttons)
  /\ prevQuantity (CartLineQuantity (nextQuantity buttons)) = 3
  /\ decrease_disabled (CartLineQuantity (nextQuantity buttons))
     = bool_decide (3 = 0).
Proof.
  apply (cart_line_quantity_steps 3). lia.
Defined.
